(** * spyne/descriptor.py: the method descriptor of an exposed RPC operation

    A shallow embedding of [MethodDescriptor] (construction, name derivation,
    header normalisation, the three key derivations, translation lookup, the
    out-bare predicate and the function-reference reset) together with the
    properties its specification states about it. *)

From Stdlib Require Import Ascii.
From stdpp Require Import base option list strings gmap.

Local Open Scope stdpp_scope.
Set Warnings "-register-all".
Set Default Proof Using "Type".

(** ** Exceptions and fallible computations *)

(** The exceptions the module can raise: [assert] statements, the
    [LogicError] of the constructor, and the [TypeError] that [issubclass]
    raises on a first argument that is not a class. *)
Inductive exn : Type :=
  | AssertionError
  | LogicError (msg : string)
  | TypeError.

Inductive result (A : Type) : Type :=
  | Ok (a : A)
  | Raise (e : exn).

Arguments Ok {A} a.
Arguments Raise {A} e.

Definition bind {A B : Type} (r : result A) (k : A -> result B) : result B :=
  match r with
  | Ok a => k a
  | Raise e => Raise e
  end.

Notation "x <- r ;; k" := (bind r (fun x => k))
  (at level 100, r at next level, right associativity).

(** [assert cond] *)
Definition assert (cond : bool) : result unit :=
  if cond then Ok tt else Raise AssertionError.

(** [try: body except TypeError: handler] *)
Definition try_except_TypeError {A : Type} (body : result A) (handler : A)
  : result A :=
  match body with
  | Raise TypeError => Ok handler
  | other => other
  end.

(** ** Strings *)

(** [s.split(sep, 1)] for a one-character separator: the text before the
    first separator and the text after it, or the whole string when the
    separator does not occur. *)
Fixpoint split_max1 (sep : ascii) (s : string) : list string :=
  match s with
  | EmptyString => [EmptyString]
  | String c rest =>
      if Ascii.eqb c sep then [EmptyString; rest]
      else match split_max1 sep rest with
           | h :: t => String c h :: t
           | [] => [String c EmptyString]
           end
  end.

(** [dn.split('.', 1)[0]] *)
Definition first_segment (dn : string) : string :=
  match split_max1 "." dn with
  | h :: _ => h
  | [] => EmptyString
  end.

(** [s.split(sep)] for a one-character separator: the pieces between the
    separators, the empty ones included; the list is never empty. *)
Fixpoint split_all (sep : ascii) (s : string) : list string :=
  match s with
  | EmptyString => [EmptyString]
  | String c rest =>
      if Ascii.eqb c sep then EmptyString :: split_all sep rest
      else match split_all sep rest with
           | h :: t => String c h :: t
           | [] => [String c EmptyString]
           end
  end.

(** [s.startswith(p)] *)
Definition startswith (s p : string) : bool := String.prefix p s.

(** [sep.join(parts)] *)
Fixpoint str_join (sep : string) (parts : list string) : string :=
  match parts with
  | [] => EmptyString
  | [p] => p
  | p :: ps => p +:+ sep +:+ str_join sep ps
  end.

(** [a != b] on strings *)
Definition str_ne (a b : string) : bool := negb (String.eqb a b).

(** How [%s] renders a value that is a string or [None]. *)
Definition str_of (v : option string) : string :=
  match v with
  | Some s => s
  | None => "None"
  end.

(** [v or fallback] on a value that is a string or [None]: [None] and the
    empty string are the falsy ones. *)
Definition or_else (v : option string) (fallback : string) : string :=
  match v with
  | Some (String c rest) => String c rest
  | Some EmptyString => fallback
  | None => fallback
  end.

(** ** Collaborators: functions, structured types, services *)

(** A callable; [six.get_function_name] reads its [__name__]. *)
Record PyFunction : Type := {
  fn_name : string
}.

Definition get_function_name (f : PyFunction) : string := fn_name f.

(** A [ModelBase] subclass (structured type), with what this module reads of
    it: [__module__], [__name__], [get_namespace()], [get_type_name()] and
    [Attributes.sub_name]. *)
Record ModelClass : Type := {
  mc_module : string;
  mc_name : string;
  get_namespace : option string;
  get_type_name : string;
  sub_name : option string
}.

(** A [ServiceBase] subclass, with what this module reads of it:
    [__module__], [__name__], the declared [__service_name__] and the result
    of [get_internal_key()]. *)
Record ServiceClass : Type := {
  sc_module : string;
  sc_name : string;
  service_name : option string;
  get_internal_key : string
}.

(** Modelled from the spec: [ServiceBase.get_service_name] is declared in
    spyne/service.py; it yields the service's declared service name when the
    class defines one, else the raw type name. *)
Definition get_service_name (sc : ServiceClass) : string :=
  match service_name sc with
  | Some n => n
  | None => sc_name sc
  end.

(** The class under which a descriptor is registered: a service or a
    structured type. [issubclass(cls, ServiceBase)] holds of the first kind
    only, and is decided by matching on the class. *)
Inductive OwnerClass : Type :=
  | OwnerService (sc : ServiceClass)
  | OwnerModel (mc : ModelClass).

(** ** Values *)

(** The values a caller can pass where the code does not constrain them. *)
Inductive pyval : Type :=
  | VNone
  | VBool (b : bool)
  | VInt (n : Z)
  | VStr (s : string)
  | VModel (mc : ModelClass)
  | VService (sc : ServiceClass)
  | VTuple (items : list pyval)
  | VList (items : list pyval).

Definition is_None (v : pyval) : bool :=
  match v with
  | VNone => true
  | _ => false
  end.

Definition isinstance_tuple (v : pyval) : bool :=
  match v with
  | VTuple _ => true
  | _ => false
  end.

(** [issubclass(v, ModelBase)]: a [TypeError] unless [v] is a class. *)
Definition issubclass_ModelBase (v : pyval) : result bool :=
  match v with
  | VModel _ => Ok true
  | VService _ => Ok false
  | _ => Raise TypeError
  end.

(** ** Body styles *)

Inductive BodyStyle : Type :=
  | BODY_STYLE_WRAPPED
  | BODY_STYLE_EMPTY
  | BODY_STYLE_BARE
  | BODY_STYLE_OUT_BARE
  | BODY_STYLE_EMPTY_OUT_BARE.

Definition body_style_eqb (a b : BodyStyle) : bool :=
  match a, b with
  | BODY_STYLE_WRAPPED, BODY_STYLE_WRAPPED
  | BODY_STYLE_EMPTY, BODY_STYLE_EMPTY
  | BODY_STYLE_BARE, BODY_STYLE_BARE
  | BODY_STYLE_OUT_BARE, BODY_STYLE_OUT_BARE
  | BODY_STYLE_EMPTY_OUT_BARE, BODY_STYLE_EMPTY_OUT_BARE => true
  | _, _ => false
  end.

(** [x in (a, b, ...)] *)
Definition body_style_in (x : BodyStyle) (l : list BodyStyle) : bool :=
  existsb (body_style_eqb x) l.

(** ** The descriptor *)

(** The attributes of a [MethodDescriptor] instance. [__real_function],
    [__in_header] and [__out_header] are the private slots behind
    [reset_function] and the two header properties. *)
Record MethodDescriptor : Type := {
  __real_function : PyFunction;
  function : PyFunction;
  operation_name : pyval;
  internal_key_suffix : string;
  in_message : ModelClass;
  name : string;
  out_message : ModelClass;
  doc : pyval;
  is_callback : pyval;
  is_async : pyval;
  mtom : pyval;
  port_type : pyval;
  __in_header : pyval;
  __out_header : pyval;
  faults : pyval;
  no_ctx : pyval;
  udd : gmap string pyval;
  class_key : pyval;
  aux : pyval;
  patterns : pyval;
  body_style : BodyStyle;
  args : pyval;
  no_self : pyval;
  service_class : option ServiceClass;
  parent_class : option ModelClass;
  default_on_null : pyval;
  translations : option (gmap string string);
  href : pyval;
  when : pyval;
  static_when : pyval
}.

(** The arguments of [MethodDescriptor.__init__], in the order of its
    signature. *)
Record InitArgs : Type := {
  arg_function : PyFunction;
  arg_in_message : ModelClass;
  arg_out_message : ModelClass;
  arg_doc : pyval;
  arg_is_callback : pyval;
  arg_is_async : pyval;
  arg_mtom : pyval;
  arg_in_header : pyval;
  arg_out_header : pyval;
  arg_faults : pyval;
  arg_parent_class : option ModelClass;
  arg_port_type : pyval;
  arg_no_ctx : pyval;
  arg_udd : gmap string pyval;
  arg_class_key : pyval;
  arg_aux : pyval;
  arg_patterns : pyval;
  arg_body_style : BodyStyle;
  arg_args : pyval;
  arg_operation_name : pyval;
  arg_no_self : pyval;
  arg_translations : option (gmap string string);
  arg_when : pyval;
  arg_static_when : pyval;
  arg_service_class : option ServiceClass;
  arg_href : pyval;
  arg_internal_key_suffix : string;
  arg_default_on_null : pyval
}.

(** *** Attribute assignment *)

(** [self.__real_function = f] *)
Definition set_real_function (self : MethodDescriptor) (f : PyFunction)
  : MethodDescriptor :=
  {| __real_function := f;
     function := function self;
     operation_name := operation_name self;
     internal_key_suffix := internal_key_suffix self;
     in_message := in_message self;
     name := name self;
     out_message := out_message self;
     doc := doc self;
     is_callback := is_callback self;
     is_async := is_async self;
     mtom := mtom self;
     port_type := port_type self;
     __in_header := __in_header self;
     __out_header := __out_header self;
     faults := faults self;
     no_ctx := no_ctx self;
     udd := udd self;
     class_key := class_key self;
     aux := aux self;
     patterns := patterns self;
     body_style := body_style self;
     args := args self;
     no_self := no_self self;
     service_class := service_class self;
     parent_class := parent_class self;
     default_on_null := default_on_null self;
     translations := translations self;
     href := href self;
     when := when self;
     static_when := static_when self |}.

(** [self.function = f] *)
Definition set_function (self : MethodDescriptor) (f : PyFunction)
  : MethodDescriptor :=
  {| __real_function := __real_function self;
     function := f;
     operation_name := operation_name self;
     internal_key_suffix := internal_key_suffix self;
     in_message := in_message self;
     name := name self;
     out_message := out_message self;
     doc := doc self;
     is_callback := is_callback self;
     is_async := is_async self;
     mtom := mtom self;
     port_type := port_type self;
     __in_header := __in_header self;
     __out_header := __out_header self;
     faults := faults self;
     no_ctx := no_ctx self;
     udd := udd self;
     class_key := class_key self;
     aux := aux self;
     patterns := patterns self;
     body_style := body_style self;
     args := args self;
     no_self := no_self self;
     service_class := service_class self;
     parent_class := parent_class self;
     default_on_null := default_on_null self;
     translations := translations self;
     href := href self;
     when := when self;
     static_when := static_when self |}.

(** [self.__in_header = h] *)
Definition set_in_header_slot (self : MethodDescriptor) (h : pyval)
  : MethodDescriptor :=
  {| __real_function := __real_function self;
     function := function self;
     operation_name := operation_name self;
     internal_key_suffix := internal_key_suffix self;
     in_message := in_message self;
     name := name self;
     out_message := out_message self;
     doc := doc self;
     is_callback := is_callback self;
     is_async := is_async self;
     mtom := mtom self;
     port_type := port_type self;
     __in_header := h;
     __out_header := __out_header self;
     faults := faults self;
     no_ctx := no_ctx self;
     udd := udd self;
     class_key := class_key self;
     aux := aux self;
     patterns := patterns self;
     body_style := body_style self;
     args := args self;
     no_self := no_self self;
     service_class := service_class self;
     parent_class := parent_class self;
     default_on_null := default_on_null self;
     translations := translations self;
     href := href self;
     when := when self;
     static_when := static_when self |}.

(** [self.__out_header = h] *)
Definition set_out_header_slot (self : MethodDescriptor) (h : pyval)
  : MethodDescriptor :=
  {| __real_function := __real_function self;
     function := function self;
     operation_name := operation_name self;
     internal_key_suffix := internal_key_suffix self;
     in_message := in_message self;
     name := name self;
     out_message := out_message self;
     doc := doc self;
     is_callback := is_callback self;
     is_async := is_async self;
     mtom := mtom self;
     port_type := port_type self;
     __in_header := __in_header self;
     __out_header := h;
     faults := faults self;
     no_ctx := no_ctx self;
     udd := udd self;
     class_key := class_key self;
     aux := aux self;
     patterns := patterns self;
     body_style := body_style self;
     args := args self;
     no_self := no_self self;
     service_class := service_class self;
     parent_class := parent_class self;
     default_on_null := default_on_null self;
     translations := translations self;
     href := href self;
     when := when self;
     static_when := static_when self |}.

(** *** [reset_function] *)

(** [def reset_function(self, val=None)]: a supplied [val] replaces the
    captured function; the live reference is then read from the capture. *)
Definition reset_function (self : MethodDescriptor) (val : option PyFunction)
  : MethodDescriptor :=
  let self :=
    match val with
    | Some v => set_real_function self v
    | None => self
    end in
  set_function self (__real_function self).

(** *** The header properties *)

(** The value the [in_header] setter stores for [in_header], or the
    assertion failure. *)
Definition in_header_value (in_header : pyval) : result pyval :=
  is_model <- try_except_TypeError (issubclass_ModelBase in_header) false;;
  let in_header := if is_model then VTuple [in_header] else in_header in
  _ <- assert (is_None in_header || isinstance_tuple in_header);;
  Ok in_header.

(** The value the [out_header] setter stores for [out_header], or the
    assertion failure. *)
Definition out_header_value (out_header : pyval) : result pyval :=
  is_model <- try_except_TypeError (issubclass_ModelBase out_header) false;;
  let out_header := if is_model then VTuple [out_header] else out_header in
  _ <- assert (is_None out_header || isinstance_tuple out_header);;
  Ok out_header.

(** [self.in_header = v] *)
Definition in_header_setter (self : MethodDescriptor) (v : pyval)
  : result MethodDescriptor :=
  h <- in_header_value v;;
  Ok (set_in_header_slot self h).

(** [self.out_header = v] *)
Definition out_header_setter (self : MethodDescriptor) (v : pyval)
  : result MethodDescriptor :=
  h <- out_header_value v;;
  Ok (set_out_header_slot self h).

(** [self.in_header] *)
Definition in_header (self : MethodDescriptor) : pyval := __in_header self.

(** [self.out_header] *)
Definition out_header (self : MethodDescriptor) : pyval := __out_header self.

(** *** Construction *)

(** [x is None] on an optional class reference. *)
Definition is_absent {A : Type} (x : option A) : bool :=
  match x with
  | None => true
  | Some _ => false
  end.

(** The public name of the operation, as [__init__] derives it: the
    sub-name of the input message for the bare body style, and the type name
    of the input message when that left the name [None]. *)
Definition init_name (body_style : BodyStyle) (in_message : ModelClass)
  : string :=
  let name : option string := None in
  let name :=
    match body_style with
    | BODY_STYLE_BARE => sub_name in_message
    | _ => name
    end in
  match name with
  | None => get_type_name in_message
  | Some n => n
  end.

(** [MethodDescriptor.__init__]. The attributes are assigned in the order of
    the source; the two header assignments go through the property setters
    and can fail, and the [default_on_null] check comes after them. *)
Definition init (a : InitArgs) : result MethodDescriptor :=
  let real_function := arg_function a in
  (* self.reset_function() *)
  let live_function := real_function in
  let name := init_name (arg_body_style a) (arg_in_message a) in
  in_header <- in_header_value (arg_in_header a);;
  out_header <- out_header_value (arg_out_header a);;
  if negb (is_None (arg_default_on_null a))
     && is_absent (arg_parent_class a)
  then Raise (LogicError "default_on_null is only to be used inside @mrpc")
  else
    Ok {| __real_function := real_function;
          function := live_function;
          operation_name := arg_operation_name a;
          internal_key_suffix := arg_internal_key_suffix a;
          in_message := arg_in_message a;
          name := name;
          out_message := arg_out_message a;
          doc := arg_doc a;
          is_callback := arg_is_callback a;
          is_async := arg_is_async a;
          mtom := arg_mtom a;
          port_type := arg_port_type a;
          __in_header := in_header;
          __out_header := out_header;
          faults := arg_faults a;
          no_ctx := arg_no_ctx a;
          udd := arg_udd a;
          class_key := arg_class_key a;
          aux := arg_aux a;
          patterns := arg_patterns a;
          body_style := arg_body_style a;
          args := arg_args a;
          no_self := arg_no_self a;
          service_class := arg_service_class a;
          parent_class := arg_parent_class a;
          default_on_null := arg_default_on_null a;
          translations := arg_translations a;
          href := arg_href a;
          when := arg_when a;
          static_when := arg_static_when a |}.

(** *** [translate] *)

Definition translate (self : MethodDescriptor) (locale : option string)
  (default : string) : string :=
  let locale :=
    match locale with
    | None => "en_US"
    | Some l => l
    end in
  match translations self with
  | Some t =>
      (* self.translations.get(locale, default) *)
      match t !! locale with
      | Some v => v
      | None => default
      end
  | None => default
  end.

(** *** [key] *)

Section Key.

(** The reserved default namespace, [spyne.const.xml_ns.DEFAULT_NS]. The
    constant is declared outside this module; it is a namespace value like
    the ones [get_namespace()] returns, and every definition below holds
    for whichever value it has. *)
Variable DEFAULT_NS : option string.

(** [ns is DEFAULT_NS]. Namespaces are values here, so the namespace that
    equals the reserved one is the reserved one. *)
Definition is_DEFAULT_NS (ns : option string) : bool :=
  bool_decide (ns = DEFAULT_NS).

Definition key (self : MethodDescriptor) : result string :=
  _ <- assert (negb (is_DEFAULT_NS (get_namespace (in_message self))));;
  Ok ("{" +:+ str_of (get_namespace (in_message self)) +:+ "}"
      +:+ get_type_name (in_message self)).

End Key.

(** *** [internal_key] *)

(** The result is [None] when the method falls off its end. *)
Definition internal_key (self : MethodDescriptor) : option string :=
  let sc := service_class self in
  match sc with
  | Some sc =>
      Some ("{" +:+ get_internal_key sc +:+ "}"
            +:+ get_function_name (function self)
            +:+ internal_key_suffix self)
  | None =>
      let pc := parent_class self in
      match pc with
      | Some pc =>
          let mn := mc_module pc in
          let on := mc_name pc in
          let dn := name self in
          if str_ne (first_segment dn) on
          then Some ("{" +:+ mn +:+ "}" +:+ on +:+ "." +:+ dn)
          else Some ("{" +:+ mn +:+ "}" +:+ dn)
      | None => None
      end
  end.

(** *** [gen_interface_key] *)

(** [get_owner_name(cls)]: the service name of a service, the [__name__]
    of any other class. *)
Definition get_owner_name (cls : OwnerClass) : string :=
  match cls with
  | OwnerService sc => get_service_name sc
  | OwnerModel mc => mc_name mc
  end.

Definition gen_interface_key (self : MethodDescriptor) (cls : OwnerClass)
  : string :=
  match cls with
  | OwnerService sc =>
      (* '{}.{}.{}'.format(...) *)
      sc_module sc +:+ "." +:+ get_owner_name cls +:+ "." +:+ name self
  | OwnerModel mc =>
      let mn := or_else (get_namespace mc) "__nons__" in
      let on := get_type_name mc in
      let dn := name self in
      if str_ne (first_segment dn) on
      then str_join "." [mn; on; dn]
      else str_join "." [mn; dn]
  end.

(** *** [_get_class_module_name] *)

(** [cls.__module__] *)
Definition owner_module (cls : OwnerClass) : string :=
  match cls with
  | OwnerService sc => sc_module sc
  | OwnerModel mc => mc_module mc
  end.

(** The module path of the class without its private fragments, the ones
    that start with an underscore. *)
Definition _get_class_module_name (cls : OwnerClass) : string :=
  str_join "."
    (List.filter (fun frag => negb (startswith frag "_"))
       (split_all "." (owner_module cls))).

(** *** [is_out_bare] *)

Definition is_out_bare (self : MethodDescriptor) : bool :=
  body_style_in (body_style self)
    [BODY_STYLE_EMPTY_OUT_BARE; BODY_STYLE_EMPTY; BODY_STYLE_BARE;
     BODY_STYLE_OUT_BARE].

(** * Vocabulary of the properties, and sample values *)

(** ** Segments of a dotted name *)

(** Whether the character [sep] occurs in [s]. *)
Fixpoint occurs (sep : ascii) (s : string) : bool :=
  match s with
  | EmptyString => false
  | String c rest => Ascii.eqb c sep || occurs sep rest
  end.

(** [seg] is the first dot-separated segment of [dn]: it holds no dot, and
    [dn] is [seg] alone or [seg] followed by a dot and the rest. *)
Definition is_first_segment (seg dn : string) : Prop :=
  occurs "." seg = false /\
  (dn = seg \/ exists rest, dn = seg +:+ "." +:+ rest).

(** ** Sample collaborators, used to run the definitions *)

Definition sample_function : PyFunction := {| fn_name := "say_hello" |}.

Definition other_function : PyFunction := {| fn_name := "wrapper" |}.

Definition sample_message : ModelClass :=
  {| mc_module := "app.models";
     mc_name := "say_hello";
     get_namespace := Some "urn:app";
     get_type_name := "say_hello";
     sub_name := Some "hello" |}.

Definition Foo : ModelClass :=
  {| mc_module := "app.models";
     mc_name := "Foo";
     get_namespace := Some "urn:app";
     get_type_name := "Foo";
     sub_name := None |}.

Definition HelloService : ServiceClass :=
  {| sc_module := "app.services";
     sc_name := "HelloService";
     service_name := None;
     get_internal_key := "app.services.HelloService" |}.

(** Constructor arguments with the given body style, header arguments,
    parent class and [default_on_null]. *)
Definition sample_args (bs : BodyStyle) (hin hout : pyval)
  (pc : option ModelClass) (don : pyval) : InitArgs :=
  {| arg_function := sample_function;
     arg_in_message := sample_message;
     arg_out_message := sample_message;
     arg_doc := VNone;
     arg_is_callback := VBool false;
     arg_is_async := VBool false;
     arg_mtom := VBool false;
     arg_in_header := hin;
     arg_out_header := hout;
     arg_faults := VTuple [];
     arg_parent_class := pc;
     arg_port_type := VNone;
     arg_no_ctx := VBool false;
     arg_udd := ∅;
     arg_class_key := VStr "say_hello";
     arg_aux := VNone;
     arg_patterns := VList [];
     arg_body_style := bs;
     arg_args := VNone;
     arg_operation_name := VStr "say_hello";
     arg_no_self := VBool true;
     arg_translations := None;
     arg_when := VNone;
     arg_static_when := VNone;
     arg_service_class := None;
     arg_href := VNone;
     arg_internal_key_suffix := "";
     arg_default_on_null := don |}.

(** A descriptor with the given owners, name, body style, translations and
    functions, the other attributes as [sample_args] has them. *)
Definition sample_descriptor (sc : option ServiceClass)
  (pc : option ModelClass) (nm : string) (bs : BodyStyle)
  (tr : option (gmap string string)) (real live : PyFunction)
  : MethodDescriptor :=
  {| __real_function := real;
     function := live;
     operation_name := VStr "say_hello";
     internal_key_suffix := "_v2";
     in_message := sample_message;
     name := nm;
     out_message := sample_message;
     doc := VNone;
     is_callback := VBool false;
     is_async := VBool false;
     mtom := VBool false;
     port_type := VNone;
     __in_header := VNone;
     __out_header := VNone;
     faults := VTuple [];
     no_ctx := VBool false;
     udd := ∅;
     class_key := VStr "say_hello";
     aux := VNone;
     patterns := VList [];
     body_style := bs;
     args := VNone;
     no_self := VBool true;
     service_class := sc;
     parent_class := pc;
     default_on_null := VNone;
     translations := tr;
     href := VNone;
     when := VNone;
     static_when := VNone |}.

(** ** Descriptors obtained through the class *)

(** The descriptors a program obtains through the class: built by
    [__init__], then changed by [reset_function] and the header setters. *)
Inductive reachable : MethodDescriptor -> Prop :=
  | reachable_init a d :
      init a = Ok d -> reachable d
  | reachable_reset d val :
      reachable d -> reachable (reset_function d val)
  | reachable_in_header d v d' :
      reachable d -> in_header_setter d v = Ok d' -> reachable d'
  | reachable_out_header d v d' :
      reachable d -> out_header_setter d v = Ok d' -> reachable d'.

(** ** The interface key in the specification's words *)

(** The rule as the specification words it: the sentinel stands in for an
    unset namespace, and a namespace that is set is used as it is. *)
Definition gen_interface_key_as_specified (self : MethodDescriptor)
  (cls : OwnerClass) : string :=
  match cls with
  | OwnerService sc =>
      let owner_name :=
        match service_name sc with
        | Some n => n
        | None => sc_name sc
        end in
      str_join "." [sc_module sc; owner_name; name self]
  | OwnerModel mc =>
      let namespace :=
        match get_namespace mc with
        | Some ns => ns
        | None => "__nons__"
        end in
      if String.eqb (first_segment (name self)) (get_type_name mc)
      then str_join "." [namespace; name self]
      else str_join "." [namespace; get_type_name mc; name self]
  end.

(** A structured type whose namespace is set to the empty string. *)
Definition UnqualifiedFoo : ModelClass :=
  {| mc_module := "app.models";
     mc_name := "Foo";
     get_namespace := Some "";
     get_type_name := "Foo";
     sub_name := None |}.

(** The segment [gen_interface_key] puts first for a structured type: its
    namespace when that is set and not empty, the sentinel otherwise. *)
Definition namespace_or_sentinel (mc : ModelClass) (mn : string) : Prop :=
  (exists ns, get_namespace mc = Some ns /\ ns <> "" /\ mn = ns) \/
  ((get_namespace mc = None \/ get_namespace mc = Some "") /\
   mn = "__nons__").

(** ** Header shapes *)

(** The shapes a header value may have on assignment: absent, a single
    structured type, or a tuple. *)
Definition header_shape_ok (v : pyval) : Prop :=
  v = VNone \/ (exists mc, v = VModel mc) \/ (exists items, v = VTuple items).

(** What the setters store for a value of an admitted shape. *)
Definition normalized (v : pyval) : pyval :=
  match v with
  | VModel mc => VTuple [VModel mc]
  | other => other
  end.

(** The assignment [setter d v] succeeds and a later read of the attribute
    through [getter] returns [stored]. *)
Definition stores (r : result MethodDescriptor)
  (getter : MethodDescriptor -> pyval) (stored : pyval) : Prop :=
  exists d', r = Ok d' /\ getter d' = stored.

(** The descriptor that [init] returns, for arguments it accepts. *)
Definition constructed (a : InitArgs) (fallback : MethodDescriptor)
  : MethodDescriptor :=
  match init a with
  | Ok d => d
  | Raise _ => fallback
  end.

(** ** Normalised headers and module fragments *)

(** A header as the setters leave it: absent or a tuple. *)
Definition header_normal (v : pyval) : Prop :=
  v = VNone \/ exists items, v = VTuple items.

(** The test [_get_class_module_name] keeps a fragment on. *)
Definition is_public (frag : string) : bool := negb (startswith frag "_").

(** A service class and a structured type that live in a private module. *)
Definition PrivateService : ServiceClass :=
  {| sc_module := "app._impl.services";
     sc_name := "PrivateService";
     service_name := Some "Public";
     get_internal_key := "app._impl.services.PrivateService" |}.

Definition PrivateModel : ModelClass :=
  {| mc_module := "_private";
     mc_name := "PrivateModel";
     get_namespace := None;
     get_type_name := "PrivateModel";
     sub_name := None |}.

(** * Properties *)

(** ** The first dot-separated segment of a name *)

Lemma split_max1_whole sep s :
  occurs sep s = false -> split_max1 sep s = [s].
Proof.
  induction s as [|c rest IH]; simpl; [done|].
  destruct (Ascii.eqb c sep); simpl; [done|].
  intros H. by rewrite (IH H).
Qed.

Lemma split_max1_cut sep h t :
  occurs sep h = false -> split_max1 sep (h +:+ String sep t) = [h; t].
Proof.
  induction h as [|c rest IH]; simpl.
  - intros _. by rewrite Ascii.eqb_refl.
  - destruct (Ascii.eqb c sep); simpl; [done|].
    intros H. by rewrite (IH H).
Qed.

Lemma split_max1_shape sep s :
  (occurs sep s = false /\ split_max1 sep s = [s]) \/
  (exists h t, occurs sep h = false /\ s = h +:+ String sep t /\
               split_max1 sep s = [h; t]).
Proof.
  induction s as [|c rest IH]; simpl.
  - by left.
  - destruct (Ascii.eqb c sep) eqn:E; simpl.
    + right. exists EmptyString, rest.
      apply Ascii.eqb_eq in E. by subst.
    + destruct IH as [[Hn Hs] | (h & t & Hn & Hr & Hs)]; rewrite Hs.
      * by left.
      * right. exists (String c h), t. simpl. rewrite E.
        split; [exact Hn|]. split; [by rewrite Hr | reflexivity].
Qed.

Lemma first_segment_is_first_segment dn :
  is_first_segment (first_segment dn) dn.
Proof.
  unfold is_first_segment, first_segment.
  destruct (split_max1_shape "." dn) as [[Hn Hs] | (h & t & Hn & Hr & Hs)];
    rewrite Hs.
  - split; [done | by left].
  - split; [done | right; by exists t].
Qed.

Lemma first_segment_unique seg dn :
  is_first_segment seg dn -> first_segment dn = seg.
Proof.
  intros [Hn [-> | [rest ->]]]; unfold first_segment.
  - by rewrite split_max1_whole.
  - change ("." +:+ rest) with (String "." rest).
    by rewrite split_max1_cut.
Qed.

Lemma str_ne_true a b : str_ne a b = true <-> a <> b.
Proof.
  unfold str_ne. rewrite negb_true_iff. apply String.eqb_neq.
Qed.

Lemma str_ne_false a b : str_ne a b = false <-> a = b.
Proof.
  unfold str_ne. rewrite negb_false_iff. apply String.eqb_eq.
Qed.

(** ** The live function reference and the captured one *)

Lemma bind_Ok {A B : Type} (r : result A) (k : A -> result B) (b : B) :
  bind r k = Ok b -> exists a, r = Ok a /\ k a = Ok b.
Proof. destruct r as [a|e]; simpl; [eauto | discriminate]. Qed.

Lemma init_Ok a d :
  init a = Ok d ->
  exists hi ho,
    in_header_value (arg_in_header a) = Ok hi /\
    out_header_value (arg_out_header a) = Ok ho /\
    (negb (is_None (arg_default_on_null a))
       && is_absent (arg_parent_class a) = false) /\
    function d = arg_function a /\
    __real_function d = arg_function a /\
    name d = init_name (arg_body_style a) (arg_in_message a) /\
    in_header d = hi /\ out_header d = ho /\
    body_style d = arg_body_style a /\
    service_class d = arg_service_class a /\
    parent_class d = arg_parent_class a.
Proof.
  unfold init. intros H.
  apply bind_Ok in H as (hi & Hi & H).
  apply bind_Ok in H as (ho & Ho & H).
  destruct (negb _ && _) eqn:E; [discriminate|].
  injection H as <-. exists hi, ho. by repeat split.
Qed.

Lemma in_header_setter_Ok d v d' :
  in_header_setter d v = Ok d' ->
  exists h, in_header_value v = Ok h /\ d' = set_in_header_slot d h.
Proof.
  unfold in_header_setter. intros H.
  apply bind_Ok in H as (h & Hh & H). injection H as <-. eauto.
Qed.

Lemma out_header_setter_Ok d v d' :
  out_header_setter d v = Ok d' ->
  exists h, out_header_value v = Ok h /\ d' = set_out_header_slot d h.
Proof.
  unfold out_header_setter. intros H.
  apply bind_Ok in H as (h & Hh & H). injection H as <-. eauto.
Qed.

(** On every descriptor obtained through the class, the live function
    reference is the captured original. *)
Lemma reachable_function d :
  reachable d -> function d = __real_function d.
Proof.
  induction 1 as [a d H | d val _ IH | d v d' _ IH H | d v d' _ IH H].
  - apply init_Ok in H as (_ & _ & _ & _ & _ & Hf & Hr & _). congruence.
  - by destruct val.
  - apply in_header_setter_Ok in H as (h & _ & ->). exact IH.
  - apply out_header_setter_Ok in H as (h & _ & ->). exact IH.
Qed.

(** ** [internal_key] *)

(** C1. [internal_key] follows the three-case rule: with [service_class] set
    it is "{" + the service class's internal key + "}" + the declared name of
    the descriptor's function + [internal_key_suffix]; otherwise, with
    [parent_class] set, it is "{" + module + "}" + class name + "." + name,
    the class segment being left out when the first dot-separated segment of
    the name is the class name; with neither set it is absent. The function
    whose name is used is the captured original on every descriptor obtained
    through the class. *)
Theorem internal_key_three_cases (d : MethodDescriptor) :
  (forall sc, service_class d = Some sc ->
     internal_key d =
       Some ("{" +:+ get_internal_key sc +:+ "}"
             +:+ fn_name (function d) +:+ internal_key_suffix d)) /\
  (forall pc seg,
     service_class d = None -> parent_class d = Some pc ->
     is_first_segment seg (name d) -> seg <> mc_name pc ->
     internal_key d =
       Some ("{" +:+ mc_module pc +:+ "}" +:+ mc_name pc +:+ "."
             +:+ name d)) /\
  (forall pc seg,
     service_class d = None -> parent_class d = Some pc ->
     is_first_segment seg (name d) -> seg = mc_name pc ->
     internal_key d = Some ("{" +:+ mc_module pc +:+ "}" +:+ name d)) /\
  (service_class d = None -> parent_class d = None ->
     internal_key d = None) /\
  (reachable d -> function d = __real_function d).
Proof.
  unfold internal_key. repeat split.
  - intros sc ->. reflexivity.
  - intros pc seg -> -> Hseg Hne.
    apply first_segment_unique in Hseg. subst seg.
    apply str_ne_true in Hne. by rewrite Hne.
  - intros pc seg -> -> Hseg Heq.
    apply first_segment_unique in Hseg. subst seg.
    apply str_ne_false in Heq. by rewrite Heq.
  - by intros -> ->.
  - apply reachable_function.
Qed.

Lemma internal_key_three_cases_witness :
  (service_class
     (sample_descriptor (Some HelloService) None "say_hello"
        BODY_STYLE_WRAPPED None sample_function sample_function)
   = Some HelloService /\
   internal_key
     (sample_descriptor (Some HelloService) None "say_hello"
        BODY_STYLE_WRAPPED None sample_function sample_function)
   = Some "{app.services.HelloService}say_hello_v2") /\
  (is_first_segment "bar" "bar.baz" /\ "bar" <> mc_name Foo /\
   internal_key
     (sample_descriptor None (Some Foo) "bar.baz" BODY_STYLE_WRAPPED None
        sample_function sample_function)
   = Some "{app.models}Foo.bar.baz") /\
  (is_first_segment "Foo" "Foo.bar" /\ "Foo" = mc_name Foo /\
   internal_key
     (sample_descriptor None (Some Foo) "Foo.bar" BODY_STYLE_WRAPPED None
        sample_function sample_function)
   = Some "{app.models}Foo.bar") /\
  internal_key
    (sample_descriptor None None "say_hello" BODY_STYLE_WRAPPED None
       sample_function sample_function)
  = None.
Proof.
  assert (Hbar : is_first_segment "bar" "bar.baz").
  { split; [reflexivity | right; by exists "baz"]. }
  assert (HFoo : is_first_segment "Foo" "Foo.bar").
  { split; [reflexivity | right; by exists "bar"]. }
  split; [split; [reflexivity|] | split; [split; [exact Hbar | split; [done|]]
    | split; [split; [exact HFoo | split; [reflexivity|]] |]]].
  - apply (proj1 (internal_key_three_cases
             (sample_descriptor (Some HelloService) None "say_hello"
                BODY_STYLE_WRAPPED None sample_function sample_function))
             HelloService).
    reflexivity.
  - apply (proj1 (proj2 (internal_key_three_cases
             (sample_descriptor None (Some Foo) "bar.baz" BODY_STYLE_WRAPPED
                None sample_function sample_function))) Foo "bar");
      done.
  - apply (proj1 (proj2 (proj2 (internal_key_three_cases
             (sample_descriptor None (Some Foo) "Foo.bar" BODY_STYLE_WRAPPED
                None sample_function sample_function)))) Foo "Foo");
      done.
  - apply (proj1 (proj2 (proj2 (proj2 (internal_key_three_cases
             (sample_descriptor None None "say_hello" BODY_STYLE_WRAPPED
                None sample_function sample_function))))));
      reflexivity.
Defined.

(** C10. When both [service_class] and [parent_class] are set, the internal
    key is the one of the [service_class] case, and [parent_class] is
    ignored: descriptors with the same service class, function and suffix
    have the same internal key, whatever their parent class and name. *)
Theorem internal_key_service_class_precedence
  (d : MethodDescriptor) (sc : ServiceClass) (pc : ModelClass) :
  service_class d = Some sc ->
  parent_class d = Some pc ->
  internal_key d =
    Some ("{" +:+ get_internal_key sc +:+ "}"
          +:+ fn_name (function d) +:+ internal_key_suffix d) /\
  (forall d',
     service_class d' = Some sc ->
     function d' = function d ->
     internal_key_suffix d' = internal_key_suffix d ->
     internal_key d' = internal_key d).
Proof.
  intros Hsc _. unfold internal_key. rewrite Hsc. split; [reflexivity|].
  intros d' -> -> ->. reflexivity.
Qed.

Lemma internal_key_service_class_precedence_witness :
  (service_class
     (sample_descriptor (Some HelloService) (Some Foo) "bar"
        BODY_STYLE_WRAPPED None sample_function sample_function)
   = Some HelloService /\
   parent_class
     (sample_descriptor (Some HelloService) (Some Foo) "bar"
        BODY_STYLE_WRAPPED None sample_function sample_function)
   = Some Foo) /\
  internal_key
    (sample_descriptor (Some HelloService) (Some Foo) "bar"
       BODY_STYLE_WRAPPED None sample_function sample_function)
  = Some "{app.services.HelloService}say_hello_v2".
Proof.
  split; [split; reflexivity|].
  apply (proj1 (internal_key_service_class_precedence
                  (sample_descriptor (Some HelloService) (Some Foo) "bar"
                     BODY_STYLE_WRAPPED None sample_function sample_function)
                  HelloService Foo eq_refl eq_refl)).
Defined.

(** ** [gen_interface_key] *)

Lemma or_else_namespace mc mn :
  namespace_or_sentinel mc mn -> or_else (get_namespace mc) "__nons__" = mn.
Proof.
  intros [(ns & -> & Hne & ->) | [[-> | ->] ->]]; simpl; try reflexivity.
  by destruct ns.
Qed.

Lemma namespace_or_sentinel_total mc :
  namespace_or_sentinel mc (or_else (get_namespace mc) "__nons__").
Proof.
  unfold namespace_or_sentinel.
  destruct (get_namespace mc) as [[|c rest]|]; simpl.
  - right. split; [by right | reflexivity].
  - left. by exists (String c rest).
  - right. split; [by left | reflexivity].
Qed.

(** C2, as the code has it. For a service class the interface key is the
    class's module, the owner name (the declared service name when defined,
    else the type name) and the descriptor's name joined with dots. For a
    structured type it is the namespace (the sentinel "__nons__" when the
    namespace is unset or the empty string), the type name and the name
    joined with dots, the type-name segment being left out when the first
    dot-separated segment of the name is the type name: with type name "Foo",
    the name "Foo.bar" gives namespace + ".Foo.bar" and the name "baz" gives
    namespace + ".Foo.baz". *)
Theorem gen_interface_key_rule (d : MethodDescriptor) :
  (forall sc n,
     service_name sc = Some n ->
     gen_interface_key d (OwnerService sc) =
       sc_module sc +:+ "." +:+ n +:+ "." +:+ name d) /\
  (forall sc,
     service_name sc = None ->
     gen_interface_key d (OwnerService sc) =
       sc_module sc +:+ "." +:+ sc_name sc +:+ "." +:+ name d) /\
  (forall mc mn seg,
     namespace_or_sentinel mc mn ->
     is_first_segment seg (name d) -> seg <> get_type_name mc ->
     gen_interface_key d (OwnerModel mc) =
       mn +:+ "." +:+ get_type_name mc +:+ "." +:+ name d) /\
  (forall mc mn seg,
     namespace_or_sentinel mc mn ->
     is_first_segment seg (name d) -> seg = get_type_name mc ->
     gen_interface_key d (OwnerModel mc) = mn +:+ "." +:+ name d) /\
  (forall mc mn,
     namespace_or_sentinel mc mn -> get_type_name mc = "Foo" ->
     (name d = "Foo.bar" ->
      gen_interface_key d (OwnerModel mc) = mn +:+ ".Foo.bar") /\
     (name d = "baz" ->
      gen_interface_key d (OwnerModel mc) = mn +:+ ".Foo.baz")).
Proof.
  unfold gen_interface_key, get_owner_name, get_service_name.
  split; [| split; [| split; [| split]]].
  - by intros sc n ->.
  - by intros sc ->.
  - intros mc mn seg Hmn Hseg Hne.
    apply first_segment_unique in Hseg. subst seg.
    apply str_ne_true in Hne.
    by rewrite Hne, (or_else_namespace _ _ Hmn).
  - intros mc mn seg Hmn Hseg Heq.
    apply first_segment_unique in Hseg. subst seg.
    apply str_ne_false in Heq.
    by rewrite Heq, (or_else_namespace _ _ Hmn).
  - intros mc mn Hmn Htn.
    rewrite (or_else_namespace _ _ Hmn), Htn.
    split; intros ->; reflexivity.
Qed.

Lemma gen_interface_key_rule_witness :
  (service_name HelloService = None /\
   gen_interface_key
     (sample_descriptor None None "say_hello" BODY_STYLE_WRAPPED None
        sample_function sample_function)
     (OwnerService HelloService)
   = "app.services.HelloService.say_hello") /\
  (namespace_or_sentinel Foo "urn:app" /\
   is_first_segment "baz" "baz" /\ "baz" <> get_type_name Foo /\
   gen_interface_key
     (sample_descriptor None None "baz" BODY_STYLE_WRAPPED None
        sample_function sample_function)
     (OwnerModel Foo)
   = "urn:app.Foo.baz") /\
  (namespace_or_sentinel UnqualifiedFoo "__nons__" /\
   is_first_segment "Foo" "Foo.bar" /\ "Foo" = get_type_name UnqualifiedFoo /\
   gen_interface_key
     (sample_descriptor None None "Foo.bar" BODY_STYLE_WRAPPED None
        sample_function sample_function)
     (OwnerModel UnqualifiedFoo)
   = "__nons__.Foo.bar").
Proof.
  assert (Hns : namespace_or_sentinel Foo "urn:app").
  { left. by exists "urn:app". }
  assert (Hno : namespace_or_sentinel UnqualifiedFoo "__nons__").
  { right. split; [by right | reflexivity]. }
  assert (Hbaz : is_first_segment "baz" "baz").
  { split; [reflexivity | by left]. }
  assert (HFoo : is_first_segment "Foo" "Foo.bar").
  { split; [reflexivity | right; by exists "bar"]. }
  split; [split; [reflexivity|]
         | split; [split; [exact Hns | split; [exact Hbaz | split; [done|]]]
                  | split; [exact Hno | split; [exact HFoo
                                               | split; [reflexivity|]]]]].
  - apply (proj1 (proj2 (gen_interface_key_rule
             (sample_descriptor None None "say_hello" BODY_STYLE_WRAPPED None
                sample_function sample_function))) HelloService).
    reflexivity.
  - apply (proj1 (proj2 (proj2 (gen_interface_key_rule
             (sample_descriptor None None "baz" BODY_STYLE_WRAPPED None
                sample_function sample_function)))) Foo "urn:app" "baz");
      done.
  - apply (proj1 (proj2 (proj2 (proj2 (gen_interface_key_rule
             (sample_descriptor None None "Foo.bar" BODY_STYLE_WRAPPED None
                sample_function sample_function)))))
             UnqualifiedFoo "__nons__" "Foo");
      done.
Defined.

(** The rule as the specification words it fails on a structured type whose
    namespace is the empty string: the code falls back to the sentinel
    there, where the specification's words keep the empty namespace. *)
Lemma gen_interface_key_empty_namespace :
  gen_interface_key
    (sample_descriptor None None "baz" BODY_STYLE_WRAPPED None
       sample_function sample_function)
    (OwnerModel UnqualifiedFoo)
  = "__nons__.Foo.baz" /\
  gen_interface_key_as_specified
    (sample_descriptor None None "baz" BODY_STYLE_WRAPPED None
       sample_function sample_function)
    (OwnerModel UnqualifiedFoo)
  = ".Foo.baz" /\
  gen_interface_key
    (sample_descriptor None None "baz" BODY_STYLE_WRAPPED None
       sample_function sample_function)
    (OwnerModel UnqualifiedFoo)
  <> gen_interface_key_as_specified
       (sample_descriptor None None "baz" BODY_STYLE_WRAPPED None
          sample_function sample_function)
       (OwnerModel UnqualifiedFoo).
Proof. repeat split. discriminate. Qed.

(** ** [key] *)

(** C3. Reading [key] fails with an assertion failure whenever the namespace
    of the input message is the reserved default namespace; otherwise it
    returns "{" + namespace + "}" + type name of the input message. *)
Theorem key_rule (DEFAULT_NS : option string) (d : MethodDescriptor) :
  (get_namespace (in_message d) = DEFAULT_NS ->
   key DEFAULT_NS d = Raise AssertionError) /\
  (get_namespace (in_message d) <> DEFAULT_NS ->
   key DEFAULT_NS d =
     Ok ("{" +:+ str_of (get_namespace (in_message d)) +:+ "}"
         +:+ get_type_name (in_message d))) /\
  (forall ns,
     get_namespace (in_message d) = Some ns -> Some ns <> DEFAULT_NS ->
     key DEFAULT_NS d =
       Ok ("{" +:+ ns +:+ "}" +:+ get_type_name (in_message d))).
Proof.
  unfold key, is_DEFAULT_NS. repeat split.
  - intros H. by rewrite bool_decide_eq_true_2.
  - intros H. by rewrite bool_decide_eq_false_2.
  - intros ns Hns H. rewrite Hns. by rewrite bool_decide_eq_false_2.
Qed.

Lemma key_rule_witness :
  (get_namespace
     (in_message
        (sample_descriptor None None "say_hello" BODY_STYLE_WRAPPED None
           sample_function sample_function))
   = Some "urn:app" /\
   key (Some "urn:app")
     (sample_descriptor None None "say_hello" BODY_STYLE_WRAPPED None
        sample_function sample_function)
   = Raise AssertionError) /\
  (Some "urn:app" <> Some "spyne.default" /\
   key (Some "spyne.default")
     (sample_descriptor None None "say_hello" BODY_STYLE_WRAPPED None
        sample_function sample_function)
   = Ok "{urn:app}say_hello").
Proof.
  split; (split; [done|]).
  - apply (proj1 (key_rule (Some "urn:app")
             (sample_descriptor None None "say_hello" BODY_STYLE_WRAPPED None
                sample_function sample_function))).
    reflexivity.
  - apply (proj2 (proj2 (key_rule (Some "spyne.default")
             (sample_descriptor None None "say_hello" BODY_STYLE_WRAPPED None
                sample_function sample_function))) "urn:app");
      done.
Defined.

(** ** Header normalisation *)

Lemma in_header_value_ok v :
  header_shape_ok v -> in_header_value v = Ok (normalized v).
Proof. intros [-> | [[mc ->] | [items ->]]]; reflexivity. Qed.

Lemma out_header_value_ok v :
  header_shape_ok v -> out_header_value v = Ok (normalized v).
Proof. intros [-> | [[mc ->] | [items ->]]]; reflexivity. Qed.

Lemma in_header_value_bad v :
  ~ header_shape_ok v -> in_header_value v = Raise AssertionError.
Proof.
  unfold header_shape_ok. intros H.
  destruct v; try reflexivity; exfalso; apply H; eauto.
Qed.

Lemma out_header_value_bad v :
  ~ header_shape_ok v -> out_header_value v = Raise AssertionError.
Proof.
  unfold header_shape_ok. intros H.
  destruct v; try reflexivity; exfalso; apply H; eauto.
Qed.

(** C5. An assignment to [in_header] or [out_header] stores a single
    structured type as the one-element tuple containing it, an absent value
    as absent and a tuple unchanged; a value of any other shape fails the
    assertion. Reading the attribute afterwards returns the stored value. *)
Theorem header_assignment (d : MethodDescriptor) :
  ((forall mc,
      stores (in_header_setter d (VModel mc)) in_header
        (VTuple [VModel mc])) /\
   stores (in_header_setter d VNone) in_header VNone /\
   (forall items,
      stores (in_header_setter d (VTuple items)) in_header (VTuple items)) /\
   (forall v,
      (forall mc, v <> VModel mc) -> v <> VNone ->
      (forall items, v <> VTuple items) ->
      in_header_setter d v = Raise AssertionError)) /\
  ((forall mc,
      stores (out_header_setter d (VModel mc)) out_header
        (VTuple [VModel mc])) /\
   stores (out_header_setter d VNone) out_header VNone /\
   (forall items,
      stores (out_header_setter d (VTuple items)) out_header
        (VTuple items)) /\
   (forall v,
      (forall mc, v <> VModel mc) -> v <> VNone ->
      (forall items, v <> VTuple items) ->
      out_header_setter d v = Raise AssertionError)).
Proof.
  unfold stores, in_header_setter, out_header_setter.
  split; (split; [| split; [| split]]).
  - intros mc. eexists. split; reflexivity.
  - eexists. split; reflexivity.
  - intros items. eexists. split; reflexivity.
  - intros v Hm Hn Ht. rewrite in_header_value_bad; [reflexivity|].
    intros [-> | [[mc ->] | [items ->]]]; [by apply Hn | by eapply Hm
                                          | by eapply Ht].
  - intros mc. eexists. split; reflexivity.
  - eexists. split; reflexivity.
  - intros items. eexists. split; reflexivity.
  - intros v Hm Hn Ht. rewrite out_header_value_bad; [reflexivity|].
    intros [-> | [[mc ->] | [items ->]]]; [by apply Hn | by eapply Hm
                                          | by eapply Ht].
Qed.

Lemma header_assignment_witness :
  ((forall mc, VList [VModel Foo] <> VModel mc) /\
   VList [VModel Foo] <> VNone /\
   (forall items, VList [VModel Foo] <> VTuple items)) /\
  in_header_setter
    (sample_descriptor None None "say_hello" BODY_STYLE_WRAPPED None
       sample_function sample_function) (VList [VModel Foo])
  = Raise AssertionError /\
  out_header_setter
    (sample_descriptor None None "say_hello" BODY_STYLE_WRAPPED None
       sample_function sample_function) (VList [VModel Foo])
  = Raise AssertionError.
Proof.
  assert (H : (forall mc, VList [VModel Foo] <> VModel mc) /\
              VList [VModel Foo] <> VNone /\
              (forall items, VList [VModel Foo] <> VTuple items)).
  { split; [| split]; intros; discriminate. }
  split; [exact H|].
  destruct H as (Hm & Hn & Ht).
  split.
  - apply (proj2 (proj2 (proj2 (proj1 (header_assignment
             (sample_descriptor None None "say_hello" BODY_STYLE_WRAPPED None
                sample_function sample_function))))));
      assumption.
  - apply (proj2 (proj2 (proj2 (proj2 (header_assignment
             (sample_descriptor None None "say_hello" BODY_STYLE_WRAPPED None
                sample_function sample_function))))));
      assumption.
Defined.

(** ** Construction *)

Lemma set_in_header_slot_name d h : name (set_in_header_slot d h) = name d.
Proof. reflexivity. Qed.

Lemma set_out_header_slot_name d h : name (set_out_header_slot d h) = name d.
Proof. reflexivity. Qed.

Lemma reset_function_name d val : name (reset_function d val) = name d.
Proof. by destruct val. Qed.

(** C4. On the descriptor that construction returns, [name] is the sub-name
    of the input message when the body style is BARE and the input message
    defines one, and the type name of the input message for every other body
    style and when BARE yields no sub-name. The name is computed at
    construction only: [reset_function] and the header assignments leave it
    as it is. *)
Theorem init_name_rule (a : InitArgs) (d : MethodDescriptor) :
  init a = Ok d ->
  (forall s,
     arg_body_style a = BODY_STYLE_BARE ->
     sub_name (arg_in_message a) = Some s ->
     name d = s) /\
  (arg_body_style a <> BODY_STYLE_BARE ->
   name d = get_type_name (arg_in_message a)) /\
  (arg_body_style a = BODY_STYLE_BARE ->
   sub_name (arg_in_message a) = None ->
   name d = get_type_name (arg_in_message a)) /\
  (forall val, name (reset_function d val) = name d) /\
  (forall v d', in_header_setter d v = Ok d' -> name d' = name d) /\
  (forall v d', out_header_setter d v = Ok d' -> name d' = name d).
Proof.
  intros H.
  apply init_Ok in H as (hi & ho & _ & _ & _ & _ & _ & Hname & _).
  rewrite Hname. unfold init_name.
  split; [| split; [| split; [| split; [| split]]]].
  - by intros s -> ->.
  - intros Hbs. by destruct (arg_body_style a).
  - by intros -> ->.
  - intros val. by rewrite reset_function_name, Hname.
  - intros v d' Hs.
    apply in_header_setter_Ok in Hs as (h & _ & ->).
    by rewrite set_in_header_slot_name, Hname.
  - intros v d' Hs.
    apply out_header_setter_Ok in Hs as (h & _ & ->).
    by rewrite set_out_header_slot_name, Hname.
Qed.

Lemma init_name_rule_witness :
  (init (sample_args BODY_STYLE_BARE VNone VNone None VNone)
   = Ok (constructed (sample_args BODY_STYLE_BARE VNone VNone None VNone)
           (sample_descriptor None None "" BODY_STYLE_WRAPPED None
              sample_function sample_function)) /\
   name (constructed (sample_args BODY_STYLE_BARE VNone VNone None VNone)
           (sample_descriptor None None "" BODY_STYLE_WRAPPED None
              sample_function sample_function))
   = "hello") /\
  (init (sample_args BODY_STYLE_OUT_BARE (VModel Foo) VNone None VNone)
   = Ok (constructed
           (sample_args BODY_STYLE_OUT_BARE (VModel Foo) VNone None VNone)
           (sample_descriptor None None "" BODY_STYLE_WRAPPED None
              sample_function sample_function)) /\
   name (constructed
           (sample_args BODY_STYLE_OUT_BARE (VModel Foo) VNone None VNone)
           (sample_descriptor None None "" BODY_STYLE_WRAPPED None
              sample_function sample_function))
   = "say_hello").
Proof.
  split; (split; [reflexivity|]).
  - apply (proj1 (init_name_rule
             (sample_args BODY_STYLE_BARE VNone VNone None VNone) _
             eq_refl) "hello");
      reflexivity.
  - apply (proj1 (proj2 (init_name_rule
             (sample_args BODY_STYLE_OUT_BARE (VModel Foo) VNone None VNone)
             _ eq_refl)));
      discriminate.
Defined.

(** Construction succeeds exactly when both header arguments have an
    admitted shape and the [default_on_null] check passes. *)
Lemma init_succeeds a :
  header_shape_ok (arg_in_header a) ->
  header_shape_ok (arg_out_header a) ->
  (arg_default_on_null a = VNone \/ arg_parent_class a <> None) ->
  exists d, init a = Ok d.
Proof.
  intros Hi Ho Hd. unfold init.
  rewrite (in_header_value_ok _ Hi), (out_header_value_ok _ Ho). simpl.
  destruct Hd as [-> | Hpc]; simpl; [eauto|].
  destruct (arg_parent_class a); [| done].
  rewrite andb_false_r. eauto.
Qed.

(** A header argument of another shape makes construction fail on the
    assertion of the setter, before [default_on_null] is looked at. *)
Lemma init_bad_header a :
  ~ header_shape_ok (arg_in_header a) \/ ~ header_shape_ok (arg_out_header a) ->
  init a = Raise AssertionError.
Proof.
  intros [Hi | Ho]; unfold init.
  - by rewrite (in_header_value_bad _ Hi).
  - destruct (in_header_value (arg_in_header a)) as [hi|e] eqn:E; simpl.
    + by rewrite (out_header_value_bad _ Ho).
    + unfold in_header_value in E.
      destruct (arg_in_header a); simpl in E; congruence.
Qed.

Lemma is_None_false v : is_None v = false <-> v <> VNone.
Proof. destruct v; simpl; split; congruence. Qed.

Lemma is_absent_true {A : Type} (x : option A) : is_absent x = true <-> x = None.
Proof. destruct x; simpl; split; congruence. Qed.

(** C6, as the code has it. When both header arguments have an admitted
    shape (absent, a single structured type, or a tuple), construction fails
    with the logic error if and only if [default_on_null] is supplied while
    [parent_class] is absent, and construction with both [default_on_null]
    and [parent_class] set succeeds. A logic error is never raised for
    another reason. *)
Theorem init_default_on_null_rule (a : InitArgs) :
  ((exists msg, init a = Raise (LogicError msg)) ->
   arg_default_on_null a <> VNone /\ arg_parent_class a = None) /\
  (header_shape_ok (arg_in_header a) ->
   header_shape_ok (arg_out_header a) ->
   ((exists msg, init a = Raise (LogicError msg)) <->
    (arg_default_on_null a <> VNone /\ arg_parent_class a = None)) /\
   (arg_default_on_null a <> VNone -> arg_parent_class a <> None ->
    exists d, init a = Ok d)).
Proof.
  assert (Hlogic : (exists msg, init a = Raise (LogicError msg)) ->
                   arg_default_on_null a <> VNone /\
                   arg_parent_class a = None).
  { intros [msg H]. unfold init in H.
    destruct (in_header_value (arg_in_header a)) as [hi|e] eqn:Ei; simpl in H.
    - destruct (out_header_value (arg_out_header a)) as [ho|e] eqn:Eo;
        simpl in H.
      + destruct (negb _ && _) eqn:E; [| discriminate].
        apply andb_true_iff in E as [E1 E2].
        apply negb_true_iff, is_None_false in E1.
        by apply is_absent_true in E2.
      + unfold out_header_value in Eo.
        destruct (arg_out_header a); simpl in Eo; congruence.
    - unfold in_header_value in Ei.
      destruct (arg_in_header a); simpl in Ei; congruence. }
  split; [exact Hlogic|].
  intros Hi Ho. split; [split; [exact Hlogic|] |].
  - intros [Hd Hpc]. unfold init.
    rewrite (in_header_value_ok _ Hi), (out_header_value_ok _ Ho). simpl.
    apply is_None_false in Hd. rewrite Hd, Hpc. simpl. eauto.
  - intros Hd Hpc. apply init_succeeds; auto.
Qed.

Lemma init_default_on_null_rule_witness :
  (header_shape_ok VNone /\ header_shape_ok (VModel Foo)) /\
  ((VInt 0 <> VNone /\ (None : option ModelClass) = None) /\
   exists msg,
     init (sample_args BODY_STYLE_WRAPPED VNone (VModel Foo) None (VInt 0))
     = Raise (LogicError msg)) /\
  ((VInt 0 <> VNone /\ Some Foo <> None) /\
   exists d,
     init (sample_args BODY_STYLE_WRAPPED VNone (VModel Foo) (Some Foo)
             (VInt 0))
     = Ok d).
Proof.
  assert (Hi : header_shape_ok VNone) by (by left).
  assert (Ho : header_shape_ok (VModel Foo)) by (right; left; by exists Foo).
  split; [by split|]. split; (split; [by split|]).
  - apply (proj2 (proj1 (proj2 (init_default_on_null_rule
             (sample_args BODY_STYLE_WRAPPED VNone (VModel Foo) None
                (VInt 0))) Hi Ho))).
    by split.
  - apply (proj2 (proj2 (init_default_on_null_rule
             (sample_args BODY_STYLE_WRAPPED VNone (VModel Foo) (Some Foo)
                (VInt 0))) Hi Ho));
      done.
Defined.

(** With [default_on_null] supplied, [parent_class] absent and a list as
    [in_header], construction fails on the assertion of the header setter
    and not with the logic error. *)
Lemma init_logic_error_not_iff :
  init (sample_args BODY_STYLE_WRAPPED (VList []) VNone None (VInt 0))
  = Raise AssertionError /\
  ~ ((exists msg,
        init (sample_args BODY_STYLE_WRAPPED (VList []) VNone None (VInt 0))
        = Raise (LogicError msg)) <->
     (arg_default_on_null
        (sample_args BODY_STYLE_WRAPPED (VList []) VNone None (VInt 0))
      <> VNone /\
      arg_parent_class
        (sample_args BODY_STYLE_WRAPPED (VList []) VNone None (VInt 0))
      = None)).
Proof.
  split; [reflexivity|].
  intros [_ H]. destruct H as [msg H]; [by split | discriminate].
Qed.

(** ** [translate] *)

(** C7. [translate] returns the registered translation for the locale when
    a translations mapping exists and holds the locale, and the default
    unchanged otherwise (no mapping, or locale not in it); an absent locale
    is treated as "en_US". The lookup is total: it never raises. *)
Theorem translate_rule (d : MethodDescriptor) (default : string) :
  translate d None default = translate d (Some "en_US") default /\
  (forall locale (t : gmap string string) v,
     translations d = Some t -> t !! locale = Some v ->
     translate d (Some locale) default = v) /\
  (forall locale (t : gmap string string),
     translations d = Some t -> t !! locale = None ->
     translate d (Some locale) default = default) /\
  (forall locale,
     translations d = None -> translate d locale default = default).
Proof.
  unfold translate. repeat split.
  - by intros locale t v -> ->.
  - by intros locale t -> ->.
  - by intros locale ->.
Qed.

Lemma translate_rule_witness :
  ((({[ "en_US" := "E" ]} : gmap string string) !! "en_US" = Some "E") /\
   translate
     (sample_descriptor None None "say_hello" BODY_STYLE_WRAPPED
        (Some {[ "en_US" := "E" ]}) sample_function sample_function)
     (Some "en_US") "D"
   = "E") /\
  ((({[ "en_US" := "E" ]} : gmap string string) !! "fr_FR" = None) /\
   translate
     (sample_descriptor None None "say_hello" BODY_STYLE_WRAPPED
        (Some {[ "en_US" := "E" ]}) sample_function sample_function)
     (Some "fr_FR") "D"
   = "D") /\
  translate
    (sample_descriptor None None "say_hello" BODY_STYLE_WRAPPED None
       sample_function sample_function)
    (Some "fr_FR") "D"
  = "D".
Proof.
  split; [split; [reflexivity|] | split; [split; [reflexivity|] |]].
  - apply (proj1 (proj2 (translate_rule
             (sample_descriptor None None "say_hello" BODY_STYLE_WRAPPED
                (Some {[ "en_US" := "E" ]}) sample_function sample_function)
             "D")) "en_US" {[ "en_US" := "E" ]});
      reflexivity.
  - apply (proj1 (proj2 (proj2 (translate_rule
             (sample_descriptor None None "say_hello" BODY_STYLE_WRAPPED
                (Some {[ "en_US" := "E" ]}) sample_function sample_function)
             "D"))) "fr_FR" {[ "en_US" := "E" ]});
      reflexivity.
  - apply (proj2 (proj2 (proj2 (translate_rule
             (sample_descriptor None None "say_hello" BODY_STYLE_WRAPPED None
                sample_function sample_function)
             "D"))) (Some "fr_FR")).
    reflexivity.
Defined.

(** The three lookups the specification lists. *)
Example translate_absent_locale :
  translate
    (sample_descriptor None None "say_hello" BODY_STYLE_WRAPPED
       (Some {[ "en_US" := "E" ]}) sample_function sample_function)
    None "D"
  = "E".
Proof. reflexivity. Qed.

Example translate_unknown_locale :
  translate
    (sample_descriptor None None "say_hello" BODY_STYLE_WRAPPED
       (Some {[ "en_US" := "E" ]}) sample_function sample_function)
    (Some "fr_FR") "D"
  = "D".
Proof. reflexivity. Qed.

Example translate_no_translations :
  translate
    (sample_descriptor None None "say_hello" BODY_STYLE_WRAPPED None
       sample_function sample_function)
    (Some "en_US") "D"
  = "D".
Proof. reflexivity. Qed.

(** ** [is_out_bare] *)

(** C8. [is_out_bare] is true for exactly the four body styles EMPTY, BARE,
    OUT_BARE and EMPTY_OUT_BARE, and false for WRAPPED. *)
Theorem is_out_bare_rule (d : MethodDescriptor) :
  (is_out_bare d = true <->
   body_style d = BODY_STYLE_EMPTY \/ body_style d = BODY_STYLE_BARE \/
   body_style d = BODY_STYLE_OUT_BARE \/
   body_style d = BODY_STYLE_EMPTY_OUT_BARE) /\
  (is_out_bare d = false <-> body_style d = BODY_STYLE_WRAPPED).
Proof.
  unfold is_out_bare.
  destruct (body_style d); simpl; split; split;
    intros H; try done; try (by auto);
    repeat (destruct H as [H | H]; try discriminate); discriminate.
Qed.

Lemma is_out_bare_rule_witness :
  (body_style
     (sample_descriptor None None "say_hello" BODY_STYLE_OUT_BARE None
        sample_function sample_function)
   = BODY_STYLE_OUT_BARE /\
   is_out_bare
     (sample_descriptor None None "say_hello" BODY_STYLE_OUT_BARE None
        sample_function sample_function)
   = true) /\
  (body_style
     (sample_descriptor None None "say_hello" BODY_STYLE_WRAPPED None
        sample_function sample_function)
   = BODY_STYLE_WRAPPED /\
   is_out_bare
     (sample_descriptor None None "say_hello" BODY_STYLE_WRAPPED None
        sample_function sample_function)
   = false).
Proof.
  split; (split; [reflexivity|]).
  - apply (proj2 (proj1 (is_out_bare_rule
             (sample_descriptor None None "say_hello" BODY_STYLE_OUT_BARE
                None sample_function sample_function)))).
    right. right. left. reflexivity.
  - apply (proj2 (proj2 (is_out_bare_rule
             (sample_descriptor None None "say_hello" BODY_STYLE_WRAPPED
                None sample_function sample_function)))).
    reflexivity.
Defined.

(** ** [reset_function] *)

(** C9. [reset_function] with a replacement rebinds the live function
    reference to it and updates the captured real function to it as well;
    with no argument it rebinds the live reference to the captured real
    function and leaves the capture unchanged. *)
Theorem reset_function_rule (d : MethodDescriptor) :
  (forall v,
     function (reset_function d (Some v)) = v /\
     __real_function (reset_function d (Some v)) = v) /\
  function (reset_function d None) = __real_function d /\
  __real_function (reset_function d None) = __real_function d.
Proof. repeat split. Qed.

(** A live reference that was swapped by hand is restored from the capture,
    and a replacement survives a later reset. *)
Example reset_function_restores :
  function
    (reset_function
       (sample_descriptor None None "say_hello" BODY_STYLE_WRAPPED None
          sample_function other_function) None)
  = sample_function /\
  function
    (reset_function
       (reset_function
          (sample_descriptor None None "say_hello" BODY_STYLE_WRAPPED None
             sample_function sample_function) (Some other_function)) None)
  = other_function.
Proof. split; reflexivity. Qed.

(** * Further properties of the module *)

(** ** Splitting and joining *)

Lemma split_all_nonempty sep s : split_all sep s <> [].
Proof.
  destruct s as [|c rest]; simpl; [done|].
  destruct (Ascii.eqb c sep); [done|].
  by destruct (split_all sep rest).
Qed.

Lemma split_all_no_sep sep s :
  Forall (fun frag => occurs sep frag = false) (split_all sep s).
Proof.
  induction s as [|c rest IH]; simpl.
  - by constructor.
  - destruct (Ascii.eqb c sep) eqn:E.
    + by constructor.
    + destruct (split_all sep rest) as [|h t].
      * constructor; [simpl; by rewrite E | constructor].
      * inversion IH as [|? ? Hh Ht]; subst.
        constructor; [simpl; by rewrite E | exact Ht].
Qed.

Lemma join_split_all sep s :
  str_join (String sep EmptyString) (split_all sep s) = s.
Proof.
  induction s as [|c rest IH]; simpl; [reflexivity|].
  pose proof (split_all_nonempty sep rest) as Hne.
  destruct (Ascii.eqb c sep) eqn:E.
  - apply Ascii.eqb_eq in E. subst c.
    destruct (split_all sep rest) as [|h t]; [done|].
    by rewrite <- IH.
  - destruct (split_all sep rest) as [|h [|q qs]]; [done | |];
      by rewrite <- IH.
Qed.

Lemma split_all_whole sep s :
  occurs sep s = false -> split_all sep s = [s].
Proof.
  induction s as [|c rest IH]; simpl; [done|].
  destruct (Ascii.eqb c sep); simpl; [done|].
  intros H. by rewrite (IH H).
Qed.

Lemma split_all_cut sep h t :
  occurs sep h = false ->
  split_all sep (h +:+ String sep t) = h :: split_all sep t.
Proof.
  induction h as [|c rest IH]; simpl.
  - intros _. by rewrite Ascii.eqb_refl.
  - destruct (Ascii.eqb c sep); simpl; [done|].
    intros H. by rewrite (IH H).
Qed.

Lemma split_all_join sep l :
  l <> [] ->
  Forall (fun frag => occurs sep frag = false) l ->
  split_all sep (str_join (String sep EmptyString) l) = l.
Proof.
  induction l as [|h [|q qs] IH]; [done | |]; intros _ Hl.
  - inversion Hl; subst. simpl. by apply split_all_whole.
  - inversion Hl as [|? ? Hh Ht]; subst.
    change (str_join (String sep EmptyString) (h :: q :: qs))
      with (h +:+ String sep (str_join (String sep EmptyString) (q :: qs))).
    rewrite split_all_cut by exact Hh.
    by rewrite IH.
Qed.

Lemma Forall_filter {A : Type} (P : A -> Prop) (f : A -> bool) (l : list A) :
  Forall P l -> Forall P (List.filter f l).
Proof.
  induction 1 as [|x l Hx Hl IH]; simpl; [constructor|].
  destruct (f x); [by constructor | exact IH].
Qed.

Lemma Forall_filter_true {A : Type} (f : A -> bool) (l : list A) :
  Forall (fun x => f x = true) (List.filter f l).
Proof.
  induction l as [|x l IH]; simpl; [constructor|].
  destruct (f x) eqn:E; [by constructor | exact IH].
Qed.

Lemma filter_all_true {A : Type} (f : A -> bool) (l : list A) :
  Forall (fun x => f x = true) l -> List.filter f l = l.
Proof.
  induction 1 as [|x l Hx Hl IH]; simpl; [reflexivity|].
  by rewrite Hx, IH.
Qed.

(** ** [_get_class_module_name] *)

Lemma public_fragments_no_dot m :
  Forall (fun frag => occurs "." frag = false)
    (List.filter is_public (split_all "." m)).
Proof. apply Forall_filter, split_all_no_sep. Qed.

Lemma split_join_public m :
  List.filter is_public (split_all "." m) <> [] ->
  split_all "." (str_join "." (List.filter is_public (split_all "." m)))
  = List.filter is_public (split_all "." m).
Proof.
  intros Hne. apply (split_all_join "." _ Hne), public_fragments_no_dot.
Qed.

(** X1. When a fragment of the module path survives, the fragments of the
    result are the public fragments of the module path, in their order. *)
Theorem class_module_name_fragments (cls : OwnerClass) :
  List.filter is_public (split_all "." (owner_module cls)) <> [] ->
  split_all "." (_get_class_module_name cls)
  = List.filter is_public (split_all "." (owner_module cls)).
Proof. apply split_join_public. Qed.

Lemma class_module_name_fragments_witness :
  List.filter is_public
    (split_all "." (owner_module (OwnerService PrivateService))) <> [] /\
  split_all "." (_get_class_module_name (OwnerService PrivateService))
  = ["app"; "services"].
Proof.
  assert (H : List.filter is_public
                (split_all "." (owner_module (OwnerService PrivateService)))
              <> []) by discriminate.
  split; [exact H|].
  exact (class_module_name_fragments (OwnerService PrivateService) H).
Defined.

Lemma public_join_no_private m :
  Forall (fun frag => startswith frag "_" = false)
    (split_all "."
       (str_join "." (List.filter is_public (split_all "." m)))).
Proof.
  destruct (List.filter is_public (split_all "." m)) as [|h t] eqn:E.
  - by repeat constructor.
  - assert (Hne : List.filter is_public (split_all "." m) <> [])
      by (by rewrite E).
    rewrite <- E, (split_join_public _ Hne).
    eapply Forall_impl; [apply Forall_filter_true|].
    intros frag H. by apply negb_true_iff in H.
Qed.

Lemma public_join_unchanged_iff m :
  str_join "." (List.filter is_public (split_all "." m)) = m <->
  Forall (fun frag => startswith frag "_" = false) (split_all "." m).
Proof.
  split.
  - intros Heq.
    destruct (List.filter is_public (split_all "." m)) as [|h t] eqn:E.
    + simpl in Heq. rewrite <- Heq in E. discriminate.
    + assert (Hne : List.filter is_public (split_all "." m) <> [])
        by (by rewrite E).
      pose proof (split_join_public _ Hne) as Hs.
      rewrite E in Hs at 1. rewrite Heq in Hs. rewrite Hs.
      eapply Forall_impl; [apply Forall_filter_true|].
      intros frag H. by apply negb_true_iff in H.
  - intros Hall.
    rewrite filter_all_true.
    + apply (join_split_all ".").
    + eapply Forall_impl; [exact Hall|].
      intros frag H. unfold is_public. by rewrite H.
Qed.

(** X2. No fragment of the result starts with an underscore, whatever the
    module path is; when every fragment is private the result is empty. *)
Theorem class_module_name_no_private (cls : OwnerClass) :
  Forall (fun frag => startswith frag "_" = false)
    (split_all "." (_get_class_module_name cls)) /\
  (List.filter is_public (split_all "." (owner_module cls)) = [] ->
   _get_class_module_name cls = "").
Proof.
  split.
  - apply public_join_no_private.
  - intros E. unfold _get_class_module_name. fold is_public. by rewrite E.
Qed.

Lemma class_module_name_no_private_witness :
  List.filter is_public
    (split_all "." (owner_module (OwnerModel PrivateModel))) = [] /\
  _get_class_module_name (OwnerModel PrivateModel) = "".
Proof.
  split; [reflexivity|].
  apply (proj2 (class_module_name_no_private (OwnerModel PrivateModel))).
  reflexivity.
Defined.

(** X3. The result is the module path itself exactly when no fragment of
    the module path starts with an underscore. *)
Theorem class_module_name_unchanged_iff (cls : OwnerClass) :
  _get_class_module_name cls = owner_module cls <->
  Forall (fun frag => startswith frag "_" = false)
    (split_all "." (owner_module cls)).
Proof. apply public_join_unchanged_iff. Qed.

Lemma class_module_name_unchanged_iff_witness :
  Forall (fun frag => startswith frag "_" = false)
    (split_all "." (owner_module (OwnerService HelloService))) /\
  _get_class_module_name (OwnerService HelloService) = "app.services".
Proof.
  assert (H : Forall (fun frag => startswith frag "_" = false)
                (split_all "." (owner_module (OwnerService HelloService))))
    by (by repeat constructor).
  split; [exact H|].
  exact (proj2 (class_module_name_unchanged_iff (OwnerService HelloService))
           H).
Defined.

(** X4. Stripping is idempotent: a class whose module path is the stripped
    path of another class has that same stripped path. *)
Theorem class_module_name_idempotent (cls cls' : OwnerClass) :
  owner_module cls' = _get_class_module_name cls ->
  _get_class_module_name cls' = _get_class_module_name cls.
Proof.
  intros Hm. rewrite <- Hm.
  apply public_join_unchanged_iff. rewrite Hm.
  apply public_join_no_private.
Qed.

Lemma class_module_name_idempotent_witness :
  owner_module (OwnerService HelloService)
  = _get_class_module_name (OwnerService PrivateService) /\
  _get_class_module_name (OwnerService HelloService)
  = _get_class_module_name (OwnerService PrivateService).
Proof.
  split; [reflexivity|].
  apply (class_module_name_idempotent (OwnerService PrivateService)
           (OwnerService HelloService)).
  reflexivity.
Defined.

(** ** Headers, after assignment *)

Lemma in_header_value_normal v h :
  in_header_value v = Ok h -> header_normal h.
Proof.
  destruct v; simpl; intros H; try discriminate; injection H as <-;
    unfold header_normal; eauto.
Qed.

Lemma out_header_value_normal v h :
  out_header_value v = Ok h -> header_normal h.
Proof.
  destruct v; simpl; intros H; try discriminate; injection H as <-;
    unfold header_normal; eauto.
Qed.

Lemma in_header_value_fixed h :
  header_normal h -> in_header_value h = Ok h.
Proof. by intros [-> | [items ->]]. Qed.

Lemma out_header_value_fixed h :
  header_normal h -> out_header_value h = Ok h.
Proof. by intros [-> | [items ->]]. Qed.

Lemma in_header_value_Raise v e :
  in_header_value v = Raise e -> e = AssertionError.
Proof. destruct v; intros H; cbv in H; congruence. Qed.

Lemma out_header_value_Raise v e :
  out_header_value v = Raise e -> e = AssertionError.
Proof. destruct v; intros H; cbv in H; congruence. Qed.

Lemma header_shape_ok_dec v : header_shape_ok v \/ ~ header_shape_ok v.
Proof.
  unfold header_shape_ok.
  destruct v; eauto; right; intros [H | [[? H] | [? H]]]; discriminate.
Qed.

(** X5. Assigning to a header the value just read from it succeeds and
    changes nothing: what a setter stores is a fixed point of the setter. *)
Theorem header_reassign_read (d d' : MethodDescriptor) (v : pyval) :
  (in_header_setter d v = Ok d' ->
   in_header_setter d' (in_header d') = Ok d') /\
  (out_header_setter d v = Ok d' ->
   out_header_setter d' (out_header d') = Ok d').
Proof.
  split; intros H.
  - apply in_header_setter_Ok in H as (h & Hh & ->).
    unfold in_header_setter, in_header. simpl.
    by rewrite (in_header_value_fixed _ (in_header_value_normal _ _ Hh)).
  - apply out_header_setter_Ok in H as (h & Hh & ->).
    unfold out_header_setter, out_header. simpl.
    by rewrite (out_header_value_fixed _ (out_header_value_normal _ _ Hh)).
Qed.

Lemma header_reassign_read_witness :
  in_header_setter
    (sample_descriptor None None "say_hello" BODY_STYLE_WRAPPED None
       sample_function sample_function) (VModel Foo)
  = Ok (set_in_header_slot
          (sample_descriptor None None "say_hello" BODY_STYLE_WRAPPED None
             sample_function sample_function) (VTuple [VModel Foo])) /\
  in_header_setter
    (set_in_header_slot
       (sample_descriptor None None "say_hello" BODY_STYLE_WRAPPED None
          sample_function sample_function) (VTuple [VModel Foo]))
    (VTuple [VModel Foo])
  = Ok (set_in_header_slot
          (sample_descriptor None None "say_hello" BODY_STYLE_WRAPPED None
             sample_function sample_function) (VTuple [VModel Foo])).
Proof.
  split; [reflexivity|].
  exact (proj1 (header_reassign_read
                  (sample_descriptor None None "say_hello" BODY_STYLE_WRAPPED
                     None sample_function sample_function)
                  (set_in_header_slot
                     (sample_descriptor None None "say_hello"
                        BODY_STYLE_WRAPPED None sample_function
                        sample_function) (VTuple [VModel Foo]))
                  (VModel Foo)) eq_refl).
Defined.

(** X6. On every descriptor obtained through the class, both headers are
    absent or a tuple: consumers can iterate them without looking for the
    single-type case. *)
Theorem reachable_headers_normal (d : MethodDescriptor) :
  reachable d ->
  header_normal (in_header d) /\ header_normal (out_header d).
Proof.
  induction 1 as [a d H | d val _ IH | d v d' _ IH H | d v d' _ IH H].
  - unfold init in H.
    apply bind_Ok in H as (hi & Hi & H).
    apply bind_Ok in H as (ho & Ho & H).
    destruct (negb _ && _); [discriminate|]. injection H as <-.
    split; [eapply in_header_value_normal | eapply out_header_value_normal];
      eassumption.
  - by destruct val.
  - apply in_header_setter_Ok in H as (h & Hh & ->).
    split; [exact (in_header_value_normal _ _ Hh) | exact (proj2 IH)].
  - apply out_header_setter_Ok in H as (h & Hh & ->).
    split; [exact (proj1 IH) | exact (out_header_value_normal _ _ Hh)].
Qed.

Lemma reachable_headers_normal_witness :
  reachable
    (constructed
       (sample_args BODY_STYLE_WRAPPED (VModel Foo) VNone None VNone)
       (sample_descriptor None None "" BODY_STYLE_WRAPPED None
          sample_function sample_function)) /\
  header_normal
    (in_header
       (constructed
          (sample_args BODY_STYLE_WRAPPED (VModel Foo) VNone None VNone)
          (sample_descriptor None None "" BODY_STYLE_WRAPPED None
             sample_function sample_function))).
Proof.
  assert (H : reachable
                (constructed
                   (sample_args BODY_STYLE_WRAPPED (VModel Foo) VNone None
                      VNone)
                   (sample_descriptor None None "" BODY_STYLE_WRAPPED None
                      sample_function sample_function))).
  { apply (reachable_init
             (sample_args BODY_STYLE_WRAPPED (VModel Foo) VNone None VNone)).
    reflexivity. }
  split; [exact H|].
  exact (proj1 (reachable_headers_normal _ H)).
Defined.

(** X7. The two header assignments are independent: in either order they
    give the same descriptor, or fail alike. *)
Theorem header_setters_commute (d : MethodDescriptor) (u v : pyval) :
  (d1 <- in_header_setter d u;; out_header_setter d1 v)
  = (d1 <- out_header_setter d v;; in_header_setter d1 u).
Proof.
  unfold in_header_setter, out_header_setter.
  destruct (in_header_value u) as [hi|ei] eqn:Ei;
    destruct (out_header_value v) as [ho|eo] eqn:Eo; simpl;
    rewrite ?Ei, ?Eo; simpl; try reflexivity.
  apply in_header_value_Raise in Ei. apply out_header_value_Raise in Eo.
  by subst.
Qed.

(** X8. Construction fails on the assertion exactly when a header argument
    has another shape than absent, a single structured type or a tuple,
    whatever [default_on_null] and [parent_class] are; it succeeds exactly
    when both header arguments have such a shape and [default_on_null] is
    absent or [parent_class] is set; the [TypeError] of [issubclass] never
    leaves it. *)
Theorem init_outcome (a : InitArgs) :
  (init a = Raise AssertionError <->
   ~ header_shape_ok (arg_in_header a) \/
   ~ header_shape_ok (arg_out_header a)) /\
  ((exists d, init a = Ok d) <->
   header_shape_ok (arg_in_header a) /\
   header_shape_ok (arg_out_header a) /\
   (arg_default_on_null a = VNone \/ arg_parent_class a <> None)) /\
  init a <> Raise TypeError.
Proof.
  destruct (header_shape_ok_dec (arg_in_header a)) as [Hi | Hi];
    [destruct (header_shape_ok_dec (arg_out_header a)) as [Ho | Ho] |].
  - destruct (negb (is_None (arg_default_on_null a))
              && is_absent (arg_parent_class a)) eqn:E.
    + assert (Hl : init a = Raise (LogicError
                "default_on_null is only to be used inside @mrpc")).
      { unfold init.
        rewrite (in_header_value_ok _ Hi), (out_header_value_ok _ Ho).
        simpl. by rewrite E. }
      apply andb_true_iff in E as [E1 E2].
      apply negb_true_iff, is_None_false in E1.
      apply is_absent_true in E2.
      rewrite Hl. split; [split | split; [split |]].
      * discriminate.
      * intros [H | H]; contradiction.
      * intros [d H]. discriminate.
      * intros (_ & _ & [H | H]); contradiction.
      * discriminate.
    + assert (Hd : arg_default_on_null a = VNone \/
                   arg_parent_class a <> None).
      { apply andb_false_iff in E as [E | E].
        - left. apply negb_false_iff in E.
          by destruct (arg_default_on_null a).
        - right. by destruct (arg_parent_class a). }
      destruct (init_succeeds a Hi Ho Hd) as [d Hd'].
      rewrite Hd'. split; [split | split; [split |]].
      * discriminate.
      * intros [H | H]; contradiction.
      * intros _. by repeat split.
      * intros _. by exists d.
      * discriminate.
  - rewrite (init_bad_header a (or_intror Ho)).
    split; [split | split; [split |]].
    + intros _. by right.
    + intros _. reflexivity.
    + intros [d H]. discriminate.
    + intros (_ & H & _). contradiction.
    + discriminate.
  - rewrite (init_bad_header a (or_introl Hi)).
    split; [split | split; [split |]].
    + intros _. by left.
    + intros _. reflexivity.
    + intros [d H]. discriminate.
    + intros (H & _). contradiction.
    + discriminate.
Qed.

Lemma init_outcome_witness :
  (~ header_shape_ok (VStr "Foo") \/ ~ header_shape_ok VNone) /\
  init (sample_args BODY_STYLE_WRAPPED (VStr "Foo") VNone (Some Foo) VNone)
  = Raise AssertionError.
Proof.
  assert (H : ~ header_shape_ok (VStr "Foo") \/ ~ header_shape_ok VNone).
  { left. intros [H | [[mc H] | [items H]]]; discriminate. }
  split; [exact H|].
  exact (proj2 (proj1 (init_outcome
           (sample_args BODY_STYLE_WRAPPED (VStr "Foo") VNone (Some Foo)
              VNone))) H).
Defined.

(** ** Internal keys *)

Lemma init_Ok_default_on_null a d :
  init a = Ok d ->
  default_on_null d = arg_default_on_null a /\
  parent_class d = arg_parent_class a /\
  negb (is_None (arg_default_on_null a)) && is_absent (arg_parent_class a)
  = false.
Proof.
  unfold init. intros H.
  apply bind_Ok in H as (hi & _ & H).
  apply bind_Ok in H as (ho & _ & H).
  destruct (negb _ && _) eqn:E; [discriminate|].
  injection H as <-. by repeat split.
Qed.

Lemma reachable_default_on_null d :
  reachable d -> default_on_null d <> VNone -> parent_class d <> None.
Proof.
  induction 1 as [a d H | d val _ IH | d v d' _ IH H | d v d' _ IH H].
  - apply init_Ok_default_on_null in H as (-> & -> & E).
    intros Hd Hpc. apply is_None_false in Hd. rewrite Hd, Hpc in E.
    discriminate.
  - by destruct val.
  - apply in_header_setter_Ok in H as (h & _ & ->). exact IH.
  - apply out_header_setter_Ok in H as (h & _ & ->). exact IH.
Qed.

Lemma internal_key_defined d :
  service_class d <> None \/ parent_class d <> None ->
  exists k, internal_key d = Some k.
Proof.
  unfold internal_key. intros H.
  destruct (service_class d) as [sc|]; [eauto|].
  destruct (parent_class d) as [pc|].
  - destruct (str_ne _ _); eauto.
  - destruct H; contradiction.
Qed.

(** X9. On every descriptor obtained through the class, a supplied
    [default_on_null] comes with a parent class, so such a descriptor always
    has an internal key. *)
Theorem reachable_default_on_null_internal_key (d : MethodDescriptor) :
  reachable d ->
  default_on_null d <> VNone ->
  parent_class d <> None /\ exists k, internal_key d = Some k.
Proof.
  intros Hr Hd.
  pose proof (reachable_default_on_null d Hr Hd) as Hpc.
  split; [exact Hpc|]. apply internal_key_defined. by right.
Qed.

Lemma reachable_default_on_null_internal_key_witness :
  (reachable
     (constructed
        (sample_args BODY_STYLE_WRAPPED VNone VNone (Some Foo) (VInt 0))
        (sample_descriptor None None "" BODY_STYLE_WRAPPED None
           sample_function sample_function)) /\
   default_on_null
     (constructed
        (sample_args BODY_STYLE_WRAPPED VNone VNone (Some Foo) (VInt 0))
        (sample_descriptor None None "" BODY_STYLE_WRAPPED None
           sample_function sample_function))
   <> VNone) /\
  exists k,
    internal_key
      (constructed
         (sample_args BODY_STYLE_WRAPPED VNone VNone (Some Foo) (VInt 0))
         (sample_descriptor None None "" BODY_STYLE_WRAPPED None
            sample_function sample_function))
    = Some k.
Proof.
  assert (Hr : reachable
                 (constructed
                    (sample_args BODY_STYLE_WRAPPED VNone VNone (Some Foo)
                       (VInt 0))
                    (sample_descriptor None None "" BODY_STYLE_WRAPPED None
                       sample_function sample_function))).
  { apply (reachable_init
             (sample_args BODY_STYLE_WRAPPED VNone VNone (Some Foo)
                (VInt 0))).
    reflexivity. }
  assert (Hd : default_on_null
                 (constructed
                    (sample_args BODY_STYLE_WRAPPED VNone VNone (Some Foo)
                       (VInt 0))
                    (sample_descriptor None None "" BODY_STYLE_WRAPPED None
                       sample_function sample_function))
               <> VNone) by discriminate.
  split; [by split|].
  exact (proj2 (reachable_default_on_null_internal_key _ Hr Hd)).
Defined.

Lemma first_segment_qualified on dn :
  occurs "." on = false -> first_segment (on +:+ "." +:+ dn) = on.
Proof.
  intros Hn. apply first_segment_unique. split; [exact Hn|].
  right. by exists dn.
Qed.

(** X10. The elision makes two names share one internal key: under a parent
    class named [C] (a name without a dot), the member name [x] and the
    qualified name [C.x] give the same key, as long as [x] does not itself
    begin with the segment [C]. *)
Theorem internal_key_elision_collision
  (d1 d2 : MethodDescriptor) (pc : ModelClass) :
  service_class d1 = None -> service_class d2 = None ->
  parent_class d1 = Some pc -> parent_class d2 = Some pc ->
  occurs "." (mc_name pc) = false ->
  first_segment (name d1) <> mc_name pc ->
  name d2 = mc_name pc +:+ "." +:+ name d1 ->
  internal_key d1 = internal_key d2.
Proof.
  intros Hs1 Hs2 Hp1 Hp2 Hn Hne Hname.
  unfold internal_key. rewrite Hs1, Hs2, Hp1, Hp2, Hname.
  rewrite (first_segment_qualified _ _ Hn).
  apply str_ne_true in Hne. rewrite Hne.
  assert (Hsame : str_ne (mc_name pc) (mc_name pc) = false)
    by (by apply str_ne_false).
  by rewrite Hsame.
Qed.

Lemma internal_key_elision_collision_witness :
  (occurs "." (mc_name Foo) = false /\
   first_segment "bar" <> mc_name Foo /\
   "Foo.bar" = mc_name Foo +:+ "." +:+ "bar") /\
  internal_key
    (sample_descriptor None (Some Foo) "bar" BODY_STYLE_WRAPPED None
       sample_function sample_function)
  = internal_key
      (sample_descriptor None (Some Foo) "Foo.bar" BODY_STYLE_WRAPPED None
         sample_function sample_function).
Proof.
  split; [split; [reflexivity | split; [discriminate | reflexivity]] |].
  apply (internal_key_elision_collision
           (sample_descriptor None (Some Foo) "bar" BODY_STYLE_WRAPPED None
              sample_function sample_function)
           (sample_descriptor None (Some Foo) "Foo.bar" BODY_STYLE_WRAPPED
              None sample_function sample_function)
           Foo);
    try reflexivity.
  discriminate.
Defined.

Lemma str_app_inv_head a x y : a +:+ x = a +:+ y -> x = y.
Proof.
  induction a as [|c a IH]; simpl; [done|].
  intros H. injection H as H. by apply IH.
Qed.

Lemma str_app_length a b :
  String.length (a +:+ b) = String.length a + String.length b.
Proof. induction a as [|c a IH]; simpl; [done | by rewrite IH]. Qed.

Lemma str_app_inv_tail x y s : x +:+ s = y +:+ s -> x = y.
Proof.
  revert y. induction x as [|c x IH]; intros [|c' y] H; simpl in *.
  - reflexivity.
  - apply (f_equal String.length) in H.
    rewrite !str_app_length in H. simpl in H. lia.
  - apply (f_equal String.length) in H.
    rewrite !str_app_length in H. simpl in H. lia.
  - injection H as -> H. f_equal. by apply IH.
Qed.

(** X11. For the methods of one service class and one suffix, the internal
    key tells the functions apart: equal internal keys mean equal function
    names. *)
Theorem internal_key_function_name_inj
  (d1 d2 : MethodDescriptor) (sc : ServiceClass) :
  service_class d1 = Some sc -> service_class d2 = Some sc ->
  internal_key_suffix d1 = internal_key_suffix d2 ->
  internal_key d1 = internal_key d2 ->
  fn_name (function d1) = fn_name (function d2).
Proof.
  intros Hs1 Hs2 Hsuf. unfold internal_key, get_function_name.
  rewrite Hs1, Hs2, Hsuf. intros H. injection H as H.
  apply (str_app_inv_head (get_internal_key sc)) in H.
  apply (str_app_inv_head "}") in H.
  by apply str_app_inv_tail in H.
Qed.

Lemma internal_key_function_name_inj_witness :
  (service_class
     (sample_descriptor (Some HelloService) None "a" BODY_STYLE_WRAPPED None
        sample_function sample_function) = Some HelloService /\
   internal_key
     (sample_descriptor (Some HelloService) None "a" BODY_STYLE_WRAPPED None
        sample_function sample_function)
   = internal_key
       (sample_descriptor (Some HelloService) (Some Foo) "b"
          BODY_STYLE_BARE None other_function sample_function)) /\
  fn_name sample_function = fn_name sample_function.
Proof.
  split; [split; reflexivity|].
  apply (internal_key_function_name_inj
           (sample_descriptor (Some HelloService) None "a"
              BODY_STYLE_WRAPPED None sample_function sample_function)
           (sample_descriptor (Some HelloService) (Some Foo) "b"
              BODY_STYLE_BARE None other_function sample_function)
           HelloService);
    reflexivity.
Defined.

(** ** Interface keys *)

(** X12. The elision makes two names share one interface key as well: for
    a structured type with type name [T] (a name without a dot), the member
    name [x] and the qualified name [T.x] give the same key, as long as [x]
    does not itself begin with the segment [T]. *)
Theorem gen_interface_key_elision_collision
  (d1 d2 : MethodDescriptor) (mc : ModelClass) :
  occurs "." (get_type_name mc) = false ->
  first_segment (name d1) <> get_type_name mc ->
  name d2 = get_type_name mc +:+ "." +:+ name d1 ->
  gen_interface_key d1 (OwnerModel mc) = gen_interface_key d2 (OwnerModel mc).
Proof.
  intros Hn Hne Hname. unfold gen_interface_key. rewrite Hname.
  rewrite (first_segment_qualified _ _ Hn).
  apply str_ne_true in Hne. rewrite Hne.
  assert (Hsame : str_ne (get_type_name mc) (get_type_name mc) = false)
    by (by apply str_ne_false).
  by rewrite Hsame.
Qed.

Lemma gen_interface_key_elision_collision_witness :
  (occurs "." (get_type_name Foo) = false /\
   first_segment "bar" <> get_type_name Foo /\
   "Foo.bar" = get_type_name Foo +:+ "." +:+ "bar") /\
  gen_interface_key
    (sample_descriptor None None "bar" BODY_STYLE_WRAPPED None
       sample_function sample_function) (OwnerModel Foo)
  = gen_interface_key
      (sample_descriptor None None "Foo.bar" BODY_STYLE_WRAPPED None
         sample_function sample_function) (OwnerModel Foo).
Proof.
  split; [split; [reflexivity | split; [discriminate | reflexivity]] |].
  apply (gen_interface_key_elision_collision
           (sample_descriptor None None "bar" BODY_STYLE_WRAPPED None
              sample_function sample_function)
           (sample_descriptor None None "Foo.bar" BODY_STYLE_WRAPPED None
              sample_function sample_function)
           Foo);
    [reflexivity | discriminate | reflexivity].
Defined.




(** ** [reset_function], composed *)

(** X14. After any call of [reset_function] the live reference is the
    captured one, even on a descriptor whose live reference had been
    swapped by hand, and a following call without argument changes
    nothing. *)
Theorem reset_function_restore
  (d : MethodDescriptor) (val : option PyFunction) :
  function (reset_function d val) = __real_function (reset_function d val) /\
  reset_function (reset_function d val) None = reset_function d val.
Proof. by destruct val. Qed.

(** X15. [reset_function] touches the two function slots only: the public
    key, the interface keys, the translations, the headers and the out-bare
    flag stay as they were, and so does the internal key of a descriptor
    without service class; with a service class, the internal key follows
    the replacement's name. *)
Theorem reset_function_derived_values
  (DEFAULT_NS : option string) (d : MethodDescriptor)
  (val : option PyFunction) :
  key DEFAULT_NS (reset_function d val) = key DEFAULT_NS d /\
  (forall cls,
     gen_interface_key (reset_function d val) cls = gen_interface_key d cls) /\
  (forall locale default,
     translate (reset_function d val) locale default
     = translate d locale default) /\
  in_header (reset_function d val) = in_header d /\
  out_header (reset_function d val) = out_header d /\
  is_out_bare (reset_function d val) = is_out_bare d /\
  (service_class d = None ->
   internal_key (reset_function d val) = internal_key d) /\
  (forall sc v,
     service_class d = Some sc ->
     internal_key (reset_function d (Some v)) =
       Some ("{" +:+ get_internal_key sc +:+ "}" +:+ fn_name v
             +:+ internal_key_suffix d)).
Proof.
  split; [by destruct val|].
  split; [by destruct val|].
  split; [by destruct val|].
  split; [by destruct val|].
  split; [by destruct val|].
  split; [by destruct val|].
  split.
  - intros Hsc. unfold internal_key. destruct val; simpl; by rewrite Hsc.
  - intros sc v Hsc. unfold internal_key. simpl. by rewrite Hsc.
Qed.

Lemma reset_function_derived_values_witness :
  service_class
    (sample_descriptor (Some HelloService) None "say_hello"
       BODY_STYLE_WRAPPED None sample_function sample_function)
  = Some HelloService /\
  internal_key
    (reset_function
       (sample_descriptor (Some HelloService) None "say_hello"
          BODY_STYLE_WRAPPED None sample_function sample_function)
       (Some other_function))
  = Some "{app.services.HelloService}wrapper_v2".
Proof.
  split; [reflexivity|].
  apply (proj2 (proj2 (proj2 (proj2 (proj2 (proj2 (proj2
           (reset_function_derived_values None
              (sample_descriptor (Some HelloService) None "say_hello"
                 BODY_STYLE_WRAPPED None sample_function sample_function)
              None)))))))
           HelloService other_function).
  reflexivity.
Defined.

(** ** Header assignment and the derived values *)

(** X16. A header assignment that succeeds changes that header only: the
    other header, the function slots, the name, the three keys, the
    translations and the out-bare flag stay as they were. *)
Theorem header_setter_derived_values
  (DEFAULT_NS : option string) (d d' : MethodDescriptor) (v : pyval) :
  in_header_setter d v = Ok d' \/ out_header_setter d v = Ok d' ->
  (in_header_setter d v = Ok d' -> out_header d' = out_header d) /\
  (out_header_setter d v = Ok d' -> in_header d' = in_header d) /\
  function d' = function d /\
  __real_function d' = __real_function d /\
  name d' = name d /\
  key DEFAULT_NS d' = key DEFAULT_NS d /\
  internal_key d' = internal_key d /\
  (forall cls, gen_interface_key d' cls = gen_interface_key d cls) /\
  (forall locale default,
     translate d' locale default = translate d locale default) /\
  is_out_bare d' = is_out_bare d.
Proof.
  intros H.
  split; [intros Hi; by apply in_header_setter_Ok in Hi as (h & _ & ->)|].
  split; [intros Ho; by apply out_header_setter_Ok in Ho as (h & _ & ->)|].
  destruct H as [H | H];
    [apply in_header_setter_Ok in H as (h & _ & ->)
    | apply out_header_setter_Ok in H as (h & _ & ->)];
    by repeat split.
Qed.

Lemma header_setter_derived_values_witness :
  (in_header_setter
     (sample_descriptor None (Some Foo) "bar" BODY_STYLE_WRAPPED None
        sample_function sample_function) (VModel Foo)
   = Ok (set_in_header_slot
           (sample_descriptor None (Some Foo) "bar" BODY_STYLE_WRAPPED None
              sample_function sample_function) (VTuple [VModel Foo]))) /\
  internal_key
    (set_in_header_slot
       (sample_descriptor None (Some Foo) "bar" BODY_STYLE_WRAPPED None
          sample_function sample_function) (VTuple [VModel Foo]))
  = internal_key
      (sample_descriptor None (Some Foo) "bar" BODY_STYLE_WRAPPED None
         sample_function sample_function).
Proof.
  split; [reflexivity|].
  exact (proj1 (proj2 (proj2 (proj2 (proj2 (proj2 (proj2
           (header_setter_derived_values None
              (sample_descriptor None (Some Foo) "bar" BODY_STYLE_WRAPPED
                 None sample_function sample_function)
              (set_in_header_slot
                 (sample_descriptor None (Some Foo) "bar" BODY_STYLE_WRAPPED
                    None sample_function sample_function)
                 (VTuple [VModel Foo]))
              (VModel Foo) (or_introl eq_refl))))))))).
Defined.
